(** * fine_tune.ipynb: the dataset builder and the notebook's configuration writes

    A shallow embedding of the executable cells of [fine_tune.ipynb].

    - Module [Py] holds the few Python string built-ins the notebook calls
      ([str.removeprefix], [re.match] on the one pattern used, f-strings).
    - Module [Pandas] holds the fragment of the data frame interface the
      notebook touches: column labels, [df[label]] with its [KeyError], and
      [+] on text columns.
    - Module [DatasetBuilder] is the cell under "Dataset Setup".
    - Module [Notebook] is the cell-by-cell state of the tokenizer and of the
      [use_cache] flags written under "Load Model" and "Train the Model".
    - The modules after these hold the lemmas; the stated properties of the
      builder are in [DatasetBuilderSpec], those of the notebook's writes at
      the end of [NotebookFacts].

    The table handed to the builder is the frame returned by [pd.read_csv]:
    one shared row index, column labels made unique by the reader
    ([Pandas.well_formed]), and in each column text, numbers or missing
    cells, with the dtype the reader infers from them. *)

From Stdlib Require Import String Ascii List Arith Bool Lia.
Import ListNotations.

Local Open Scope string_scope.
Local Open Scope list_scope.

(** Python's [+] on [str]. *)
Infix "+:+" := String.append (at level 60, right associativity).

(** ** Outcomes of a cell: a value, or the exception that stopped it *)

(** [TypeError] stands for Python's and for numpy's [UFuncTypeError], which
    is one; [ArrowException] for pyarrow's [ArrowTypeError] and
    [ArrowInvalid], which both are. *)
Inductive exn : Type :=
| KeyError (key : string)
| TypeError
| ArrowException
| NameError (name : string)
| LibraryError (call : string).

Inductive result (A : Type) : Type :=
| Ok (a : A)
| Raise (e : exn).

Arguments Ok {A} a.
Arguments Raise {A} e.

Definition bind {A B : Type} (m : result A) (k : A -> result B) : result B :=
  match m with
  | Ok a => k a
  | Raise e => Raise e
  end.

Declare Scope py_scope.
Delimit Scope py_scope with py.
Notation "x <- m ;; k" := (bind m (fun x => k))
  (at level 61, m at next level, right associativity) : py_scope.
Local Open Scope py_scope.

Definition raises {A : Type} (m : result A) : Prop :=
  exists e, m = Raise e.

Definition completes {A : Type} (m : result A) : Prop :=
  exists a, m = Ok a.

(** ** Python string built-ins *)

Module Py.

(** [s.startswith(p)] *)
Fixpoint startswith (p s : string) : bool :=
  match p with
  | EmptyString => true
  | String a p' =>
      match s with
      | EmptyString => false
      | String b s' => Ascii.eqb a b && startswith p' s'
      end
  end.

(** [s[n:]] for [0 <= n] *)
Fixpoint drop (n : nat) (s : string) : string :=
  match n with
  | O => s
  | S n' =>
      match s with
      | EmptyString => EmptyString
      | String _ s' => drop n' s'
      end
  end.

(** [s.removeprefix(p)]: [s[len(p):]] when [s] starts with [p], else [s]. *)
Definition removeprefix (p s : string) : string :=
  if startswith p s then drop (String.length p) s else s.

Definition newline : ascii := Ascii.ascii_of_nat 10.

(** The longest run of characters other than a line feed at the head of
    [s]: what a greedy [.*] consumes. *)
Fixpoint dot_star (s : string) : string :=
  match s with
  | EmptyString => EmptyString
  | String c s' =>
      if Ascii.eqb c newline then EmptyString else String c (dot_star s')
  end.

(** [re.match(lit + ".*", s)] for a pattern made of a literal (no
    metacharacters) followed by [.*].  The match is anchored at the start
    of [s] only; the result is the matched text ([m.group(0)]) or [None]. *)
Definition re_match_lit_dot_star (lit s : string) : option string :=
  if startswith lit s
  then Some (lit +:+ dot_star (drop (String.length lit) s))
  else None.

(** Truth value of an optional match object in an [if] clause. *)
Definition truthy {A : Type} (m : option A) : bool :=
  match m with
  | Some _ => true
  | None => false
  end.

End Py.

(** ** The data frame fragment *)

Module Pandas.

(** What a cell of the frame, and an entry of a Python list made from a
    column, can be: a [str]; a number (a cell of an int64, float64 or bool
    column, whose value plays no part in the cells modelled, a numeric
    column never taking the marker); or the float [nan] that [pd.read_csv]
    puts for an empty or NA field. *)
Inductive scalar : Type :=
| Str (s : string)
| Num
| NaN.

Definition is_str (x : scalar) : bool :=
  match x with
  | Str _ => true
  | _ => false
  end.

Definition is_num (x : scalar) : bool :=
  match x with
  | Num => true
  | _ => false
  end.

(** A column of the frame, top row first. *)
Definition Series : Type := list scalar.

(** A column all of whose cells hold text. *)
Definition text (l : list string) : Series := map Str l.

Inductive dtype : Type :=
| object
| numeric.

(** The dtype [pd.read_csv] gives a column: [object] when the frame has no
    rows or some cell of the column is text, a numeric dtype when every
    cell is a number or missing. *)
Definition dtype_of (s : Series) : dtype :=
  match s with
  | [] => object
  | _ :: _ => if existsb is_str s then object else numeric
  end.

(** A value in the middle of [a + b + "..."]: a series that is no column
    of the frame, with the dtype the operation gave it. *)
Record Array : Type := mkArray {
  array_dtype : dtype;
  rows : list scalar
}.

(** A frame: the length of its row index and its labelled columns, in
    file order. *)
Record DataFrame : Type := mkDataFrame {
  nrows : nat;
  cols : list (string * Series)
}.

(** [df.columns] *)
Definition columns (df : DataFrame) : list string :=
  map fst (cols df).

Fixpoint lookup (key : string) (l : list (string * Series)) : option Series :=
  match l with
  | [] => None
  | (name, s) :: l' => if String.eqb name key then Some s else lookup key l'
  end.

(** [df[key]]: the column labelled [key], or [KeyError(key)]. *)
Definition getitem (df : DataFrame) (key : string) : result Series :=
  match lookup key (cols df) with
  | Some s => Ok s
  | None => Raise (KeyError key)
  end.

(** One row of [a + b].  Where either side is missing the row is missing
    (float arithmetic on [nan], or the masked operation pandas falls back
    to on object columns); text is joined to text and a number added to a
    number; text against a number is Python's [TypeError]. *)
Definition add_row (x y : scalar) : result scalar :=
  match x, y with
  | NaN, _ => Ok NaN
  | _, NaN => Ok NaN
  | Str s, Str t => Ok (Str (s +:+ t))
  | Num, Num => Ok Num
  | Str _, Num => Raise TypeError
  | Num, Str _ => Raise TypeError
  end.

Fixpoint add_rows (a b : list scalar) : result (list scalar) :=
  match a, b with
  | x :: a', y :: b' =>
      r <- add_row x y ;;
      rs <- add_rows a' b' ;;
      Ok (r :: rs)
  | _, _ => Ok []
  end.

(** [a + b] on two columns of one frame: the rows share the index, so the
    sum is taken row by row; the result is numeric only when both columns
    are. *)
Definition series_add (a b : Series) : result Array :=
  rs <- add_rows a b ;;
  Ok (mkArray (match dtype_of a, dtype_of b with
               | numeric, numeric => numeric
               | _, _ => object
               end) rs).

(** One row of [a + suffix] on an object series: a missing row stays
    missing. *)
Definition add_suffix (suffix : string) (x : scalar) : result scalar :=
  match x with
  | Str s => Ok (Str (s +:+ suffix))
  | NaN => Ok NaN
  | Num => Raise TypeError
  end.

Fixpoint add_suffixes (suffix : string) (a : list scalar) : result (list scalar) :=
  match a with
  | [] => Ok []
  | x :: a' =>
      r <- add_suffix suffix x ;;
      rs <- add_suffixes suffix a' ;;
      Ok (r :: rs)
  end.

(** [a + suffix] with a scalar string on the right: a numeric series does
    not take a string, whatever its rows. *)
Definition series_add_str (a : Array) (suffix : string) : result Array :=
  match array_dtype a with
  | numeric => Raise TypeError
  | object =>
      rs <- add_suffixes suffix (rows a) ;;
      Ok (mkArray object rs)
  end.

Fixpoint nodupb (l : list string) : bool :=
  match l with
  | [] => true
  | x :: l' => negb (existsb (String.eqb x) l') && nodupb l'
  end.

(** What [pd.read_csv] guarantees: every column spans the row index and no
    label occurs twice. *)
Definition well_formed (df : DataFrame) : bool :=
  forallb (fun c => Nat.eqb (List.length (snd c)) (nrows df)) (cols df)
  && nodupb (columns df).

(** A column [pd.read_csv] types [object] and fills with text, some cells
    possibly missing. *)
Definition text_column (s : Series) : bool :=
  match dtype_of s with
  | object => negb (existsb is_num s)
  | numeric => false
  end.

(** The cell of column [key] at row [j] (missing off the frame). *)
Definition cell (df : DataFrame) (key : string) (j : nat) : scalar :=
  match lookup key (cols df) with
  | Some s => nth j s NaN
  | None => NaN
  end.

End Pandas.

(** ** Dataset Setup *)

Module DatasetBuilder.

Import Py Pandas.

Definition output_prefix : string := "inference_output ".
Definition prompt_prefix : string := "full_prompt ".
Definition eot : string := "<|eot_id|>".

(** [topics = [column.removeprefix("inference_output ")
               for column in edited_df.columns
               if re.match("inference_output .*", column)]] *)
Definition topics (df : DataFrame) : list string :=
  map (removeprefix output_prefix)
      (filter (fun column => truthy (re_match_lit_dot_star output_prefix column))
              (columns df)).

(** The body of [for topic in topics: full_text.extend(...)], threading the
    list [full_text]; a failed column lookup or a failed [+] stops the
    loop. *)
Fixpoint extend_loop (df : DataFrame) (ts : list string) (full_text : list scalar)
  : result (list scalar) :=
  match ts with
  | [] => Ok full_text
  | topic :: ts' =>
      p <- getitem df (prompt_prefix +:+ topic) ;;
      o <- getitem df (output_prefix +:+ topic) ;;
      s <- series_add p o ;;
      t <- series_add_str s eot ;;
      extend_loop df ts' (full_text ++ rows t)
  end.

(** [full_text = []] followed by the loop over [topics]. *)
Definition build_full_text (df : DataFrame) : result (list scalar) :=
  extend_loop df (topics df) [].

(** A [datasets.Dataset] as the notebook builds it: named columns of equal
    length. *)
Definition Dataset : Type := list (string * list scalar).

(** A Python list Arrow can type: not one that holds a [str] next to a
    float. *)
Definition arrow_typed (l : list scalar) : bool :=
  negb (existsb is_str l && existsb (fun x => negb (is_str x)) l).

(** [Dataset.from_dict(d)]: each list becomes an Arrow array, which fails
    ([ArrowTypeError] or [ArrowInvalid], by the order of the entries) on a
    list of mixed types. *)
Definition from_dict (d : list (string * list scalar)) : result Dataset :=
  if forallb (fun c => arrow_typed (snd c)) d
  then Ok d
  else Raise ArrowException.

Definition num_rows (ds : Dataset) : nat :=
  match ds with
  | [] => 0
  | (_, c) :: _ => List.length c
  end.

(** The cell up to [dataset = Dataset.from_dict({"text": full_text})]. *)
Definition build_dataset (df : DataFrame) : result Dataset :=
  full_text <- build_full_text df ;;
  from_dict [("text", full_text)].

(** Number of rows of the column [inference_output {topic}]. *)
Definition topic_rows (df : DataFrame) (topic : string) : nat :=
  match lookup (output_prefix +:+ topic) (cols df) with
  | Some s => List.length s
  | None => 0
  end.

(** Every detected topic has its [full_prompt {TOPIC}] column. *)
Definition follows_convention (df : DataFrame) : bool :=
  forallb (fun t => existsb (String.eqb (prompt_prefix +:+ t)) (columns df))
          (topics df).

(** The column labelled [key], empty when the frame has none. *)
Definition column (df : DataFrame) (key : string) : Series :=
  match lookup key (cols df) with
  | Some s => s
  | None => []
  end.

(** Both columns of every detected topic are text columns. *)
Definition text_topics (df : DataFrame) : bool :=
  forallb (fun t => text_column (column df (prompt_prefix +:+ t))
                    && text_column (column df (output_prefix +:+ t)))
          (topics df).

(** The entry a row leaves in [full_text] when its topic goes through: the
    two cells and the marker when both cells hold text, [nan] when one of
    them is missing. *)
Definition joined (x y : scalar) : scalar :=
  match x, y with
  | Str p, Str o => Str ((p +:+ o) +:+ eot)
  | _, _ => NaN
  end.

Fixpoint join_rows (a b : list scalar) : list scalar :=
  match a, b with
  | x :: a', y :: b' => joined x y :: join_rows a' b'
  | _, _ => []
  end.

(** The entries one topic adds to [full_text] when it goes through. *)
Definition topic_text (df : DataFrame) (topic : string) : list scalar :=
  join_rows (column df (prompt_prefix +:+ topic))
            (column df (output_prefix +:+ topic)).

Definition reddit_example : DataFrame :=
  mkDataFrame 2
    [ ("id", text ["a1"; "b2"]);
      ("full_prompt cats", text ["P1 "; "P2 "]);
      ("inference_output cats", text ["O1"; "O2"]);
      ("full_prompt dogs", text ["Q1 "; "Q2 "]);
      ("inference_output dogs", text ["R1"; "R2"]) ].

(** A sheet whose output columns were never exported. *)
Definition prompts_only_example : DataFrame :=
  mkDataFrame 2
    [ ("id", text ["a1"; "b2"]);
      ("full_prompt cats", text ["P1 "; "P2 "]) ].

(** A sheet with an output column for [dogs] but no prompt column for it. *)
Definition missing_prompt_example : DataFrame :=
  mkDataFrame 2
    [ ("full_prompt cats", text ["P1 "; "P2 "]);
      ("inference_output cats", text ["O1"; "O2"]);
      ("inference_output dogs", text ["R1"; "R2"]) ].

(** A sheet whose topic columns hold numbers only, as

      full_prompt cats,inference_output cats
      1,3
      2,4                                                          *)
Definition numeric_example : DataFrame :=
  mkDataFrame 2
    [ ("full_prompt cats", [Num; Num]);
      ("inference_output cats", [Num; Num]) ].

(** A sheet with one output cell left empty. *)
Definition empty_cell_example : DataFrame :=
  mkDataFrame 2
    [ ("full_prompt cats", text ["P1 "; "P2 "]);
      ("inference_output cats", [Str "O1"; NaN]) ].


End DatasetBuilder.

(** ** The notebook, cell by cell *)

Module Notebook.

Import Py Pandas DatasetBuilder.

(** The two special tokens of a tokenizer that the notebook reads or
    writes; [None] is an unset token. *)
Record Tokenizer : Type := mkTokenizer {
  eos_token : option string;
  pad_token : option string
}.

(** [t.pad_token = v] *)
Definition set_pad_token (t : Tokenizer) (v : option string) : Tokenizer :=
  mkTokenizer (eos_token t) v.

(** The two model handles bound by the notebook. *)
Inductive handle : Type :=
| model
| model_for_training.

Definition handle_name (h : handle) : string :=
  match h with
  | model => "model"
  | model_for_training => "model_for_training"
  end.

(** What the libraries do with the objects the notebook hands them, as far
    as the notebook can observe it. *)
Inductive event : Type :=
| UsesTokenizer (t : Tokenizer)
| ForwardPass (model_use_cache wrapped_use_cache : bool).

(** The kernel's state as far as the statements below read or write it.
    Tokenizers are objects: [objects] holds them by address, [next] is the
    first unused address, and the global [tokenizer] and the trainer bound
    to [trainer] hold the address of the tokenizer they refer to, so that
    an assignment to an attribute is seen through both.  [use_cache] is the
    flag of each configuration object by address, [names] are the other
    globals bound so far, [trace] the events so far, oldest first. *)
Record state : Type := mkState {
  objects : nat -> Tokenizer;
  next : nat;
  tokenizer : option nat;
  trainer : option nat;
  dataset : option Dataset;
  names : list string;
  use_cache : nat -> bool;
  trace : list event
}.

(** The statements of the code cells.  A [LibraryCall] is a call that
    touches none of the objects above: it reads some globals, may fail, and
    may bind its result to a global. *)
Inductive stmt : Type :=
| TokenizerFromPretrained
| AssignPadToken
| BuildDataset
| MakeTrainer
| SetUseCache (h : handle) (b : bool)
| TrainerTrain
| LibraryCall (call : string) (reads : list string) (binds : option string).

Definition alloc (t : Tokenizer) (st : state) : state :=
  mkState (fun a => if Nat.eqb a (next st) then t else objects st a)
          (S (next st)) (tokenizer st) (trainer st) (dataset st) (names st)
          (use_cache st) (trace st).

Definition store (a : nat) (t : Tokenizer) (st : state) : state :=
  mkState (fun a' => if Nat.eqb a' a then t else objects st a')
          (next st) (tokenizer st) (trainer st) (dataset st) (names st)
          (use_cache st) (trace st).

Definition bind_tokenizer (a : nat) (st : state) : state :=
  mkState (objects st) (next st) (Some a) (trainer st) (dataset st) (names st)
          (use_cache st) (trace st).

Definition bind_trainer (a : nat) (st : state) : state :=
  mkState (objects st) (next st) (tokenizer st) (Some a) (dataset st) (names st)
          (use_cache st) (trace st).

Definition bind_dataset (ds : Dataset) (st : state) : state :=
  mkState (objects st) (next st) (tokenizer st) (trainer st) (Some ds) (names st)
          (use_cache st) (trace st).

Definition bind_name (x : string) (st : state) : state :=
  mkState (objects st) (next st) (tokenizer st) (trainer st) (dataset st)
          (x :: names st) (use_cache st) (trace st).

Definition write_use_cache (a : nat) (b : bool) (st : state) : state :=
  mkState (objects st) (next st) (tokenizer st) (trainer st) (dataset st) (names st)
          (fun a' => if Nat.eqb a' a then b else use_cache st a')
          (trace st).

Definition log (e : event) (st : state) : state :=
  mkState (objects st) (next st) (tokenizer st) (trainer st) (dataset st) (names st)
          (use_cache st) (trace st ++ [e]).

(** Whether the global [x] is bound. *)
Definition bound (st : state) (x : string) : bool :=
  if String.eqb x "tokenizer" then truthy (tokenizer st)
  else if String.eqb x "trainer" then truthy (trainer st)
  else if String.eqb x "dataset" then truthy (dataset st)
  else existsb (String.eqb x) (names st).

(** The first of the globals [xs], read in this order, that is unbound. *)
Fixpoint first_unbound (st : state) (xs : list string) : option string :=
  match xs with
  | [] => None
  | x :: xs' => if bound st x then first_unbound st xs' else Some x
  end.

Definition outcome : Type := state * option exn.
Definition done (st : state) : outcome := (st, None).
Definition failed (st : state) (e : exn) : outcome := (st, Some e).

Section Run.

(** What the surroundings decide: the tokenizer the hub serves (or the
    failure of the download), the frame read from the spreadsheet, which
    library calls fail, where each handle keeps its configuration object
    (the wrapper may share the one of the base model), and how many batches
    the trainer runs. *)
Variable hub_tokenizer : result Tokenizer.
Variable edited_df : DataFrame.
Variable library_fails : string -> bool.
Variable config_of : handle -> nat.
Variable train_steps : nat.

(** One batch of [trainer.train()]: the collator pads with the trainer's
    tokenizer as it is now, the model runs forward under the [use_cache]
    flags as they stand.  The trainer is a reader of the flags; the
    notebook's assignments are their only writes. *)
Definition train_step (a : nat) (st : state) : state :=
  log (ForwardPass (use_cache st (config_of model))
                   (use_cache st (config_of model_for_training)))
      (log (UsesTokenizer (objects st a)) st).

Fixpoint train_loop (n : nat) (a : nat) (st : state) : state :=
  match n with
  | O => st
  | S n' => train_loop n' a (train_step a st)
  end.

(** [trainer = SFTTrainer(model=model_for_training, args=training_args,
    tokenizer=tokenizer, train_dataset=train_test_split["train"], ...,
    data_collator=DataCollatorForLanguageModeling(tokenizer=tokenizer, ...),
    ..., peft_config=peft_config, ...)], arguments evaluated left to right. *)
Definition make_trainer (st : state) : outcome :=
  match first_unbound st ["model_for_training"; "training_args"] with
  | Some x => failed st (NameError x)
  | None =>
      match tokenizer st with
      | None => failed st (NameError "tokenizer")
      | Some a =>
          match first_unbound st ["train_test_split"] with
          | Some x => failed st (NameError x)
          | None =>
              let st1 := log (UsesTokenizer (objects st a)) st in
              match first_unbound st1 ["peft_config"] with
              | Some x => failed st1 (NameError x)
              | None =>
                  if library_fails "SFTTrainer"
                  then failed st1 (LibraryError "SFTTrainer")
                  else done (bind_trainer a (log (UsesTokenizer (objects st1 a)) st1))
              end
          end
      end
  end.

(** One statement: the state after it and the exception it raised, if any. *)
Definition exec (s : stmt) (st : state) : outcome :=
  match s with
  | TokenizerFromPretrained =>
      match hub_tokenizer with
      | Ok t => done (bind_tokenizer (next st) (alloc t st))
      | Raise e => failed st e
      end
  | AssignPadToken =>
      match tokenizer st with
      | Some a =>
          done (store a (set_pad_token (objects st a) (eos_token (objects st a))) st)
      | None => failed st (NameError "tokenizer")
      end
  | BuildDataset =>
      match build_dataset edited_df with
      | Ok ds => done (bind_dataset ds st)
      | Raise e => failed st e
      end
  | MakeTrainer => make_trainer st
  | SetUseCache h b =>
      if bound st (handle_name h)
      then done (write_use_cache (config_of h) b st)
      else failed st (NameError (handle_name h))
  | TrainerTrain =>
      match trainer st with
      | Some a =>
          let st' := train_loop train_steps a st in
          if library_fails "trainer.train"
          then failed st' (LibraryError "trainer.train")
          else done st'
      | None => failed st (NameError "trainer")
      end
  | LibraryCall call reads binds =>
      match first_unbound st reads with
      | Some x => failed st (NameError x)
      | None =>
          if library_fails call
          then failed st (LibraryError call)
          else done (match binds with
                     | Some x => bind_name x st
                     | None => st
                     end)
      end
  end.

(** Statements in order; the first exception halts the run and the state
    reached so far stays. *)
Fixpoint run (p : list stmt) (st : state) : outcome :=
  match p with
  | [] => done st
  | s :: p' =>
      match exec s st with
      | (st', None) => run p' st'
      | (st', Some e) => failed st' e
      end
  end.

End Run.

(** "Load Model", from the quantization settings on; the imports and the
    token read from the environment or asked for are no statements here. *)
Definition load_model_cell : list stmt :=
  [ LibraryCall "BitsAndBytesConfig" [] (Some "quantization_config");
    TokenizerFromPretrained;
    AssignPadToken;
    LibraryCall "AutoModelForCausalLM.from_pretrained"
                ["quantization_config"] (Some "model") ].

(** "Set up LoRA" *)
Definition lora_cells : list stmt :=
  [ LibraryCall "LoraConfig" [] (Some "peft_config");
    LibraryCall "get_peft_model" ["model"; "peft_config"] (Some "model_for_training");
    LibraryCall "print_trainable_parameters" ["model_for_training"] None ].

(** "Dataset Setup"; the frame is the one [pd.read_csv] returned, the
    reading itself is no statement here. *)
Definition dataset_cell : list stmt :=
  [ BuildDataset;
    LibraryCall "train_test_split" ["dataset"] (Some "train_test_split") ].

Definition trainer_cell : list stmt :=
  [ LibraryCall "TrainingArguments" [] (Some "training_args");
    MakeTrainer ].

(** "Train the Model" *)
Definition disable_cache : list stmt :=
  [ SetUseCache model false;
    SetUseCache model_for_training false ].

Definition train_cell : list stmt :=
  disable_cache ++
  [ TrainerTrain;
    LibraryCall "torch.cuda.empty_cache" [] None;
    SetUseCache model true;
    SetUseCache model_for_training true ].

(** "Save output" *)
Definition save_cell : list stmt :=
  [ LibraryCall "save_pretrained" ["model_for_training"] None ].

Definition before_training : list stmt :=
  load_model_cell ++ lora_cells ++ dataset_cell ++ trainer_cell.

Definition after_loader : list stmt :=
  lora_cells ++ dataset_cell ++ trainer_cell ++ train_cell ++ save_cell.

Definition notebook : list stmt :=
  load_model_cell ++ after_loader.

(** A fresh kernel: nothing bound, nothing allocated, nothing observed. *)
Definition fresh (initial_use_cache : nat -> bool) : state :=
  mkState (fun _ => mkTokenizer None None) 0 None None None []
          initial_use_cache [].

(** The events logged between two states of one run. *)
Definition events_since (st st' : state) : list event :=
  skipn (List.length (trace st)) (trace st').

(** The tokenizer handed over has its padding token equal to its
    end-of-sequence token. *)
Definition padded_with_eos (e : event) : Prop :=
  match e with
  | UsesTokenizer t => pad_token t = eos_token t
  | ForwardPass _ _ => True
  end.

(** The forward pass ran with caching off on both handles. *)
Definition cache_off (e : event) : Prop :=
  match e with
  | UsesTokenizer _ => True
  | ForwardPass b w => b = false /\ w = false
  end.

(** The state is safe for the components that pad: the tokenizer behind
    the global and the one behind the trainer, and every tokenizer handed
    over so far, pad with the end-of-sequence token. *)
Definition tokenizer_ready (st : state) : Prop :=
  (forall a, tokenizer st = Some a \/ trainer st = Some a ->
             pad_token (objects st a) = eos_token (objects st a)) /\
  Forall padded_with_eos (trace st).

Definition rebinds_tokenizer (s : stmt) : bool :=
  match s with
  | TokenizerFromPretrained => true
  | _ => false
  end.

(** No forward pass so far ran with caching on. *)
Definition never_trained (st : state) : Prop :=
  Forall cache_off (trace st).

Definition trains (s : stmt) : bool :=
  match s with
  | TrainerTrain => true
  | _ => false
  end.

(** One training batch as the trace records it. *)
Definition batch (t : Tokenizer) (b w : bool) : list event :=
  [UsesTokenizer t; ForwardPass b w].

(** Separate configuration objects for the two handles, and one shared
    object. *)
Definition separate_configs (h : handle) : nat :=
  match h with
  | model => 0
  | model_for_training => 1
  end.

Definition shared_config (h : handle) : nat := 0.

(** The Llama 3.2 tokenizer as the hub serves it: an end-of-turn token as
    end of sequence, no padding token. *)
Definition llama_tokenizer : Tokenizer :=
  mkTokenizer (Some "<|eot_id|>") None.

(** A run on the example sheet: the hub serves the Llama tokenizer, no
    library call fails, the handles share their configuration object, the
    trainer runs two batches. *)
Definition example_run : list stmt -> state -> outcome :=
  run (Ok llama_tokenizer) reddit_example (fun _ => false) shared_config 2.

Definition loaded_example : state :=
  fst (example_run load_model_cell (fresh (fun _ => true))).

Definition ready_example : state :=
  fst (example_run before_training (fresh (fun _ => true))).

End Notebook.

(** ** The loop of "Dataset Setup" with the list it extends *)

Module BuilderState.

Import Py Pandas DatasetBuilder.

(** [for topic in topics: full_text.extend(...)] with [full_text] as the
    list object the cell mutates: the list as the loop leaves it, and the
    exception that stopped it, if any.  The argument of [extend] is
    evaluated before the call, so a failed lookup or a failed [+] leaves
    the list as the topics before it made it. *)
Fixpoint extend_loop_state (df : DataFrame) (ts : list string) (full_text : list scalar)
  : list scalar * option exn :=
  match ts with
  | [] => (full_text, None)
  | topic :: ts' =>
      match (p <- getitem df (prompt_prefix +:+ topic) ;;
             o <- getitem df (output_prefix +:+ topic) ;;
             s <- series_add p o ;;
             series_add_str s eot) with
      | Raise e => (full_text, Some e)
      | Ok t => extend_loop_state df ts' (full_text ++ rows t)
      end
  end.

(** The global [full_text] after the loop, and how the loop ended. *)
Definition full_text_after (df : DataFrame) : list scalar * option exn :=
  extend_loop_state df (topics df) [].

(** A sheet saved with its header line only. *)
Definition header_only_example : DataFrame :=
  mkDataFrame 0
    [ ("full_prompt cats", []);
      ("inference_output cats", []);
      ("full_prompt dogs", []);
      ("inference_output dogs", []) ].

(** A sheet where two topics lack their prompt column, [dogs] before
    [birds], after a complete topic. *)
Definition two_missing_example : DataFrame :=
  mkDataFrame 1
    [ ("full_prompt cats", text ["P "]);
      ("inference_output cats", text ["O"]);
      ("inference_output dogs", text ["R"]);
      ("inference_output birds", text ["B"]) ].

End BuilderState.

(** ** Objects across a run *)

Module NotebookState.

Import Notebook.

(** [st'] comes after [st]: the tokenizers of [st] are still there, with
    the end-of-sequence token they had, and those that padded with it still
    do. *)
Definition keeps_tokenizers (st st' : state) : Prop :=
  next st <= next st' /\
  forall a, a < next st ->
    eos_token (objects st' a) = eos_token (objects st a) /\
    (pad_token (objects st a) = eos_token (objects st a) ->
     pad_token (objects st' a) = eos_token (objects st' a)).

(** The state the two assignments of "Train the Model" leave before
    [trainer.train()]. *)
Definition armed (config_of : handle -> nat) (st : state) : state :=
  write_use_cache (config_of model_for_training) false
    (write_use_cache (config_of model) false st).

(** The state the two assignments after training leave. *)
Definition restored (config_of : handle -> nat) (st : state) : state :=
  write_use_cache (config_of model_for_training) true
    (write_use_cache (config_of model) true st).

(** A run on the example sheet whose trainer fails. *)
Definition failing_run : list stmt -> state -> outcome :=
  run (Ok llama_tokenizer) DatasetBuilder.reddit_example
      (String.eqb "trainer.train") separate_configs 2.

(** A run on the sheet that lacks a prompt column. *)
Definition missing_prompt_run : list stmt -> state -> outcome :=
  run (Ok llama_tokenizer) DatasetBuilder.missing_prompt_example
      (fun _ => false) separate_configs 2.

(** The example run up to the trainer, from a kernel whose flags are off. *)
Definition ready_cache_off : state :=
  fst (example_run before_training (fresh (fun _ => false))).

Definition failing_ready : state :=
  fst (failing_run before_training (fresh (fun _ => true))).

Definition final_example : state :=
  fst (example_run notebook (fresh (fun _ => true))).

(** The state before "Dataset Setup" on the sheet that lacks a prompt
    column. *)
Definition wrapped_missing : state :=
  fst (missing_prompt_run (load_model_cell ++ lora_cells) (fresh (fun _ => true))).

End NotebookState.

(** ** Facts about the string built-ins *)

Module PyFacts.

Import Py.

Lemma startswith_app (p s : string) :
  startswith p (p +:+ s) = true.
Proof.
  induction p as [|a p IH]; simpl; [reflexivity|].
  now rewrite Ascii.eqb_refl, IH.
Qed.

Lemma drop_app (p s : string) :
  drop (String.length p) (p +:+ s) = s.
Proof.
  induction p as [|a p IH]; simpl; [reflexivity | exact IH].
Qed.

Lemma startswith_split (p s : string) :
  startswith p s = true -> p +:+ drop (String.length p) s = s.
Proof.
  revert s; induction p as [|a p IH]; intros s H; simpl in *; [reflexivity|].
  destruct s as [|b s]; [discriminate|].
  apply andb_true_iff in H as [Hab Hps].
  apply Ascii.eqb_eq in Hab; subst b.
  now rewrite (IH s Hps).
Qed.

Lemma removeprefix_app (p s : string) :
  removeprefix p (p +:+ s) = s.
Proof.
  unfold removeprefix. now rewrite startswith_app, drop_app.
Qed.

Lemma removeprefix_restore (p s : string) :
  startswith p s = true -> p +:+ removeprefix p s = s.
Proof.
  intros H. unfold removeprefix. rewrite H. now apply startswith_split.
Qed.

(** The pattern ends in [.*], which also matches the empty string, so the
    match object exists exactly when the literal is a prefix. *)
Lemma re_match_truthy (lit s : string) :
  truthy (re_match_lit_dot_star lit s) = startswith lit s.
Proof.
  unfold re_match_lit_dot_star. now destruct (startswith lit s).
Qed.


End PyFacts.

(** ** Facts about the frame fragment *)

Module PandasFacts.

Import Pandas.

Local Arguments String.append : simpl never.

Lemma lookup_some_in (key : string) (l : list (string * Series)) (s : Series) :
  lookup key l = Some s -> In (key, s) l.
Proof.
  induction l as [|[name c] l IH]; simpl; [discriminate|].
  destruct (String.eqb name key) eqn:E.
  - apply String.eqb_eq in E. subst name. intros [= ->]. now left.
  - intros H. right. now apply IH.
Qed.

Lemma lookup_none_iff (key : string) (l : list (string * Series)) :
  lookup key l = None <-> ~ In key (map fst l).
Proof.
  induction l as [|[name c] l IH]; simpl.
  - split; [intros _ [] | reflexivity].
  - destruct (String.eqb name key) eqn:E.
    + apply String.eqb_eq in E. split; [discriminate|]. intros H. exfalso. apply H. now left.
    + apply String.eqb_neq in E. rewrite IH. split.
      * intros H [H1|H1]; [now apply E | now apply H].
      * intros H H1. apply H. now right.
Qed.

Lemma lookup_in_columns (key : string) (l : list (string * Series)) :
  In key (map fst l) -> exists s, lookup key l = Some s.
Proof.
  intros H. destruct (lookup key l) as [s|] eqn:E; [now exists s|].
  apply lookup_none_iff in E. contradiction.
Qed.

(** Dropping a column does not disturb the lookup of any other label. *)
Lemma lookup_remove (key k0 : string) (s0 : Series) (l1 l2 : list (string * Series)) :
  key <> k0 -> lookup key (l1 ++ (k0, s0) :: l2) = lookup key (l1 ++ l2).
Proof.
  intros Hne. induction l1 as [|[name c] l1 IH]; simpl.
  - destruct (String.eqb k0 key) eqn:E; [|reflexivity].
    apply String.eqb_eq in E. congruence.
  - now rewrite IH.
Qed.

Lemma well_formed_length (df : DataFrame) (key : string) (s : Series) :
  well_formed df = true -> lookup key (cols df) = Some s -> List.length s = nrows df.
Proof.
  unfold well_formed. intros H Hl.
  apply andb_true_iff in H as [H _].
  rewrite forallb_forall in H.
  apply lookup_some_in in Hl. apply H in Hl. simpl in Hl.
  now apply Nat.eqb_eq.
Qed.

(** [+] fails in one way only. *)
Lemma add_rows_raise (a b : list scalar) (e : exn) :
  add_rows a b = Raise e -> e = TypeError.
Proof.
  revert b; induction a as [|x a IH]; intros [|y b]; simpl; try discriminate.
  destruct x, y; simpl; try (intros [= <-]; reflexivity);
    destruct (add_rows a b) eqn:E; simpl; try discriminate;
    intros [= <-]; now apply (IH b).
Qed.

Lemma series_add_raise (a b : Series) (e : exn) :
  series_add a b = Raise e -> e = TypeError.
Proof.
  unfold series_add. destruct (add_rows a b) eqn:E; simpl; [discriminate|].
  intros [= <-]. now apply add_rows_raise in E.
Qed.

Lemma add_suffixes_raise (suffix : string) (a : list scalar) (e : exn) :
  add_suffixes suffix a = Raise e -> e = TypeError.
Proof.
  induction a as [|x a IH]; simpl; [discriminate|].
  destruct x; simpl; try (intros [= <-]; reflexivity);
    destruct (add_suffixes suffix a); simpl; try discriminate;
    intros [= <-]; now apply IH.
Qed.

Lemma series_add_str_raise (a : Array) (suffix : string) (e : exn) :
  series_add_str a suffix = Raise e -> e = TypeError.
Proof.
  unfold series_add_str. destruct (array_dtype a); [|intros [= <-]; reflexivity].
  destruct (add_suffixes suffix (rows a)) eqn:E; simpl; [discriminate|].
  intros [= <-]. now apply add_suffixes_raise in E.
Qed.

(** On columns without numbers [+] goes through and brings no number. *)
Lemma add_rows_text (a b : list scalar) :
  existsb is_num a = false -> existsb is_num b = false ->
  exists rs, add_rows a b = Ok rs /\ existsb is_num rs = false.
Proof.
  revert b; induction a as [|x a IH]; intros [|y b] Ha Hb; simpl;
    try (exists []; now split).
  simpl in Ha, Hb. apply orb_false_iff in Ha as [Hx Ha], Hb as [Hy Hb].
  destruct (IH b Ha Hb) as (rs & -> & Hrs).
  destruct x, y; try discriminate; simpl; eexists; (split; [reflexivity|]); exact Hrs.
Qed.

Lemma add_suffixes_text (suffix : string) (a : list scalar) :
  existsb is_num a = false -> exists out, add_suffixes suffix a = Ok out.
Proof.
  induction a as [|x a IH]; simpl; intros H; [now exists []|].
  apply orb_false_iff in H as [Hx Ha]. destruct (IH Ha) as (out & ->).
  destruct x; try discriminate; simpl; eexists; reflexivity.
Qed.

Lemma text_column_spec (s : Series) :
  text_column s = true -> dtype_of s = object /\ existsb is_num s = false.
Proof.
  unfold text_column. destruct (dtype_of s); [|discriminate].
  intros H. split; [reflexivity|]. now apply negb_true_iff.
Qed.

Lemma text_column_nil : text_column [] = true.
Proof. reflexivity. Qed.

End PandasFacts.

(** ** The dataset builder *)

Module DatasetBuilderFacts.

Import Py Pandas DatasetBuilder PyFacts PandasFacts.

Local Arguments String.append : simpl never.

(** A topic is detected exactly when the frame has its
    [inference_output {TOPIC}] column. *)
Lemma topics_in (df : DataFrame) (t : string) :
  In t (topics df) <-> In (output_prefix +:+ t) (columns df).
Proof.
  unfold topics. rewrite in_map_iff. split.
  - intros (c & Hc & Hin). apply filter_In in Hin as [Hin Hm].
    rewrite re_match_truthy in Hm. subst t.
    now rewrite removeprefix_restore.
  - intros Hin. exists (output_prefix +:+ t). split; [apply removeprefix_app|].
    apply filter_In. split; [exact Hin|].
    rewrite re_match_truthy. apply startswith_app.
Qed.

Lemma topics_nil (df : DataFrame) :
  (forall c, In c (columns df) -> re_match_lit_dot_star output_prefix c = None) ->
  topics df = [].
Proof.
  intros H. unfold topics.
  induction (columns df) as [|c l IH]; simpl; [reflexivity|].
  rewrite (H c) by now left. simpl. apply IH.
  intros c' Hc'. apply H. now right.
Qed.

Lemma follows_convention_in (df : DataFrame) (t : string) :
  follows_convention df = true -> In t (topics df) ->
  In (prompt_prefix +:+ t) (columns df).
Proof.
  unfold follows_convention. rewrite forallb_forall. intros H Ht.
  apply H in Ht. apply existsb_exists in Ht as (c & Hc & Heq).
  apply String.eqb_eq in Heq. now subst c.
Qed.

(** When [a + b + marker] goes through, its rows are the joined rows. *)
Lemma joined_rows (a b rs out : list scalar) :
  add_rows a b = Ok rs -> add_suffixes eot rs = Ok out -> out = join_rows a b.
Proof.
  revert b rs out; induction a as [|x a IH]; intros [|y b] rs out; simpl;
    try (intros [= <-]; simpl; now intros [= <-]).
  destruct (add_row x y) as [r|] eqn:Hr; simpl; [|discriminate].
  destruct (add_rows a b) as [rs'|] eqn:Hrs; simpl; [|discriminate].
  intros [= <-]. simpl.
  destruct (add_suffix eot r) as [r'|] eqn:Hr'; simpl; [|discriminate].
  destruct (add_suffixes eot rs') as [out'|] eqn:Hout; simpl; [|discriminate].
  intros [= <-]. f_equal; [|now apply (IH b rs')].
  destruct x, y; simpl in Hr; try discriminate; injection Hr as <-;
    simpl in Hr'; try discriminate; now injection Hr' as <-.
Qed.

Lemma series_ok_rows (p o : Series) (s t : Array) :
  series_add p o = Ok s -> series_add_str s eot = Ok t -> rows t = join_rows p o.
Proof.
  unfold series_add, series_add_str.
  destruct (add_rows p o) as [rs|] eqn:Hrs; simpl; [|discriminate].
  intros [= <-]. simpl.
  destruct (match dtype_of p with
            | object => object
            | numeric => match dtype_of o with
                         | object => object
                         | numeric => numeric
                         end
            end); [|discriminate].
  destruct (add_suffixes eot rs) as [out|] eqn:Hout; simpl; [|discriminate].
  intros [= <-]. simpl. now apply (joined_rows p o rs).
Qed.

Lemma text_series_ok (p o : Series) :
  text_column p = true -> text_column o = true ->
  exists s t, series_add p o = Ok s /\ series_add_str s eot = Ok t.
Proof.
  intros Hp Ho. apply text_column_spec in Hp as [Hdp Hnp], Ho as [Hdo Hno].
  destruct (add_rows_text p o Hnp Hno) as (rs & Hrs & Hn).
  destruct (add_suffixes_text eot rs Hn) as (out & Hout).
  exists (mkArray object rs), (mkArray object out). split.
  - unfold series_add. now rewrite Hrs, Hdp.
  - unfold series_add_str. cbn [array_dtype rows]. now rewrite Hout.
Qed.

(** The loop completes on topics whose two columns are there and hold
    text, and then it has appended the topics' entries in order. *)
Lemma extend_loop_ok (df : DataFrame) (ts : list string) (acc : list scalar) :
  (forall t, In t ts ->
     In (prompt_prefix +:+ t) (columns df) /\ In (output_prefix +:+ t) (columns df) /\
     text_column (column df (prompt_prefix +:+ t)) = true /\
     text_column (column df (output_prefix +:+ t)) = true) ->
  extend_loop df ts acc = Ok (acc ++ flat_map (topic_text df) ts).
Proof.
  revert acc; induction ts as [|t ts IH]; intros acc H; simpl.
  - now rewrite app_nil_r.
  - destruct (H t (or_introl eq_refl)) as (Hp & Ho & Htp & Hto).
    apply lookup_in_columns in Hp as [p Hp], Ho as [o Ho].
    unfold column in Htp, Hto. rewrite Hp in Htp. rewrite Ho in Hto.
    destruct (text_series_ok p o Htp Hto) as (s & tt & Hs & Htt).
    unfold getitem. rewrite Hp. simpl. rewrite Ho. simpl.
    rewrite Hs. simpl. rewrite Htt. simpl.
    rewrite IH by (intros t' Ht'; apply H; now right).
    rewrite <- app_assoc. unfold topic_text, column. rewrite Hp, Ho.
    now rewrite (series_ok_rows p o s tt Hs Htt).
Qed.

Lemma extend_loop_inv (df : DataFrame) (ts : list string) (acc l : list scalar) :
  extend_loop df ts acc = Ok l ->
  l = acc ++ flat_map (topic_text df) ts /\
  forall t, In t ts -> In (prompt_prefix +:+ t) (columns df).
Proof.
  revert acc; induction ts as [|t ts IH]; intros acc; simpl.
  - intros [= <-]. rewrite app_nil_r. split; [reflexivity | intros t []].
  - unfold getitem.
    destruct (lookup (prompt_prefix +:+ t) (cols df)) as [p|] eqn:Hp; simpl; [|discriminate].
    destruct (lookup (output_prefix +:+ t) (cols df)) as [o|] eqn:Ho; simpl; [|discriminate].
    destruct (series_add p o) as [s|] eqn:Hs; simpl; [|discriminate].
    destruct (series_add_str s eot) as [tt|] eqn:Htt; simpl; [|discriminate].
    intros H. apply IH in H as [-> Hall]. split.
    + rewrite <- app_assoc. unfold topic_text, column. rewrite Hp, Ho.
      now rewrite (series_ok_rows p o s tt Hs Htt).
    + intros t' [<-|Ht']; [|now apply Hall].
      apply lookup_some_in in Hp. now apply (in_map fst) in Hp.
Qed.


Lemma text_topics_in (df : DataFrame) (t : string) :
  text_topics df = true -> In t (topics df) ->
  text_column (column df (prompt_prefix +:+ t)) = true /\
  text_column (column df (output_prefix +:+ t)) = true.
Proof.
  unfold text_topics. rewrite forallb_forall. intros H Ht.
  apply H in Ht. now apply andb_true_iff in Ht.
Qed.


Lemma join_rows_length (a b : list scalar) :
  List.length (join_rows a b) = Nat.min (List.length a) (List.length b).
Proof.
  revert b; induction a as [|x a IH]; intros [|y b]; simpl; auto.
Qed.

Lemma join_rows_nth (a b : list scalar) (j : nat) :
  j < List.length a -> j < List.length b ->
  nth j (join_rows a b) NaN = joined (nth j a NaN) (nth j b NaN).
Proof.
  revert b j; induction a as [|x a IH]; intros [|y b] [|j]; simpl; intros Ha Hb;
    try lia; [reflexivity|].
  apply IH; lia.
Qed.

Lemma topic_text_length (df : DataFrame) (t : string) :
  well_formed df = true ->
  In (prompt_prefix +:+ t) (columns df) -> In (output_prefix +:+ t) (columns df) ->
  List.length (topic_text df t) = nrows df /\ topic_rows df t = nrows df.
Proof.
  intros Hwf Hp Ho.
  apply lookup_in_columns in Hp as [p Hp], Ho as [o Ho].
  unfold topic_text, topic_rows, column. rewrite Hp, Ho.
  rewrite join_rows_length.
  rewrite (well_formed_length df _ p Hwf Hp), (well_formed_length df _ o Hwf Ho).
  split; [apply Nat.min_id | reflexivity].
Qed.

Lemma topic_text_nth (df : DataFrame) (t : string) (j : nat) :
  well_formed df = true ->
  In (prompt_prefix +:+ t) (columns df) -> In (output_prefix +:+ t) (columns df) ->
  j < nrows df ->
  nth j (topic_text df t) NaN =
  joined (cell df (prompt_prefix +:+ t) j) (cell df (output_prefix +:+ t) j).
Proof.
  intros Hwf Hp Ho Hj.
  apply lookup_in_columns in Hp as [p Hp], Ho as [o Ho].
  pose proof (well_formed_length df _ p Hwf Hp) as Lp.
  pose proof (well_formed_length df _ o Hwf Ho) as Lo.
  unfold topic_text, cell, column. rewrite Hp, Ho.
  apply join_rows_nth; lia.
Qed.

(** Blocks of equal length laid end to end: block [i], offset [j]. *)
Lemma flat_map_length_uniform (f : string -> list scalar) (ts : list string) (n : nat) :
  (forall t, In t ts -> List.length (f t) = n) ->
  List.length (flat_map f ts) = List.length ts * n.
Proof.
  induction ts as [|t ts IH]; intros H; simpl; [reflexivity|].
  rewrite length_app, (H t) by now left.
  rewrite IH by (intros t' Ht'; apply H; now right). reflexivity.
Qed.

Lemma flat_map_nth_uniform (f : string -> list scalar) (ts : list string) (n i j : nat) :
  (forall t, In t ts -> List.length (f t) = n) ->
  i < List.length ts -> j < n ->
  nth (i * n + j) (flat_map f ts) NaN = nth j (f (nth i ts "")) NaN.
Proof.
  revert i; induction ts as [|t ts IH]; intros i H Hi Hj; simpl in Hi; [lia|].
  simpl flat_map. destruct i as [|i].
  - simpl. apply app_nth1. rewrite (H t) by now left. exact Hj.
  - rewrite app_nth2 by (rewrite (H t) by (now left); simpl; lia).
    rewrite (H t) by now left.
    replace (S i * n + j - n) with (i * n + j) by (simpl; lia).
    simpl nth. apply IH; [intros t' Ht'; apply H; now right | lia | exact Hj].
Qed.

Lemma list_sum_const (ts : list string) (g : string -> nat) (n : nat) :
  (forall t, In t ts -> g t = n) ->
  list_sum (map g ts) = List.length ts * n.
Proof.
  induction ts as [|t ts IH]; intros H; simpl; [reflexivity|].
  rewrite (H t) by now left.
  rewrite IH by (intros t' Ht'; apply H; now right). reflexivity.
Qed.

(** An empty [full_text] makes an empty dataset. *)
Lemma from_dict_nil : from_dict [("text", [])] = Ok [("text", [])].
Proof. reflexivity. Qed.

End DatasetBuilderFacts.

Module DatasetBuilderSpec.

Import Py Pandas DatasetBuilder PyFacts PandasFacts DatasetBuilderFacts.

Local Arguments String.append : simpl never.

(** C1, as the cell has it.  For a frame whose detected topics are not
    empty, all have their [full_prompt {TOPIC}] column next to the
    [inference_output {TOPIC}] one, and have text columns for both (no
    column of numbers, no column left entirely empty), the loop completes
    with one flat list [full_text] whose length is the sum, over the
    topics, of the number of rows of the topic; every topic contributes
    the [nrows] rows of the frame. *)
Theorem full_text_length (df : DataFrame) :
  well_formed df = true ->
  follows_convention df = true ->
  topics df <> [] ->
  text_topics df = true ->
  exists full_text,
    build_full_text df = Ok full_text /\
    List.length full_text = list_sum (map (topic_rows df) (topics df)) /\
    List.length full_text = List.length (topics df) * nrows df.
Proof.
  intros Hwf Hconv _ Htext.
  assert (Hall : forall t, In t (topics df) ->
            In (prompt_prefix +:+ t) (columns df) /\
            In (output_prefix +:+ t) (columns df) /\
            text_column (column df (prompt_prefix +:+ t)) = true /\
            text_column (column df (output_prefix +:+ t)) = true).
  { intros t Ht. destruct (text_topics_in df t Htext Ht) as [Hp Ho].
    split; [now apply follows_convention_in|]. split; [now apply topics_in|].
    now split. }
  exists (flat_map (topic_text df) (topics df)).
  split; [unfold build_full_text; now rewrite extend_loop_ok|].
  assert (L : List.length (flat_map (topic_text df) (topics df))
              = List.length (topics df) * nrows df).
  { apply flat_map_length_uniform. intros t Ht.
    destruct (Hall t Ht) as (Hp & Ho & _). now apply topic_text_length. }
  split; [|exact L]. rewrite L. symmetry.
  apply list_sum_const. intros t Ht.
  destruct (Hall t Ht) as (Hp & Ho & _). now apply topic_text_length.
Qed.

Lemma full_text_length_witness :
  exists full_text,
    build_full_text reddit_example = Ok full_text /\
    List.length full_text
      = list_sum (map (topic_rows reddit_example) (topics reddit_example)) /\
    List.length full_text = List.length (topics reddit_example) * nrows reddit_example.
Proof.
  apply (full_text_length reddit_example);
    [reflexivity | reflexivity | discriminate | reflexivity].
Defined.

(** C1, refuted as stated: a sheet with one topic that has both its
    columns, on which the loop produces no list because the columns hold
    numbers and [+] with the marker raises [TypeError]. *)
Lemma numeric_topic_raises :
  well_formed numeric_example = true /\
  follows_convention numeric_example = true /\
  topics numeric_example <> [] /\
  build_full_text numeric_example = Raise TypeError /\
  ~ completes (build_full_text numeric_example).
Proof.
  repeat split; try reflexivity; [discriminate|].
  intros [l H]. discriminate H.
Qed.

(** C2, as the cell has it.  When the loop completes, the entry it
    produced for row [j] of the [i]-th topic, found at position
    [i * nrows + j] of [full_text], is the row's [full_prompt] cell, then
    its [inference_output] cell, then [<|eot_id|>], and nothing else,
    when both cells hold text; when one of them is missing the entry is
    [nan] and no string. *)
Theorem training_string_exact (df : DataFrame) (full_text : list scalar) (i j : nat) :
  well_formed df = true ->
  build_full_text df = Ok full_text ->
  i < List.length (topics df) ->
  j < nrows df ->
  nth (i * nrows df + j) full_text NaN =
    match cell df (prompt_prefix +:+ nth i (topics df) "") j,
          cell df (output_prefix +:+ nth i (topics df) "") j with
    | Str p, Str o => Str ((p +:+ o) +:+ "<|eot_id|>")
    | _, _ => NaN
    end.
Proof.
  intros Hwf Hb Hi Hj. unfold build_full_text in Hb.
  apply extend_loop_inv in Hb as [-> Hall]. rewrite app_nil_l.
  assert (Hlen : forall t, In t (topics df) ->
            List.length (topic_text df t) = nrows df).
  { intros t Ht. apply topic_text_length;
      [exact Hwf | now apply Hall | now apply topics_in]. }
  rewrite flat_map_nth_uniform by assumption.
  assert (Hin : In (nth i (topics df) "") (topics df)) by now apply nth_In.
  rewrite topic_text_nth;
    [reflexivity | exact Hwf | now apply Hall | now apply topics_in | exact Hj].
Qed.

Lemma training_string_exact_witness :
  nth (1 * nrows reddit_example + 0)
      [Str "P1 O1<|eot_id|>"; Str "P2 O2<|eot_id|>";
       Str "Q1 R1<|eot_id|>"; Str "Q2 R2<|eot_id|>"] NaN
  = match cell reddit_example (prompt_prefix +:+ nth 1 (topics reddit_example) "") 0,
          cell reddit_example (output_prefix +:+ nth 1 (topics reddit_example) "") 0 with
    | Str p, Str o => Str ((p +:+ o) +:+ "<|eot_id|>")
    | _, _ => NaN
    end.
Proof.
  apply (training_string_exact reddit_example);
    [reflexivity | reflexivity | simpl; lia | simpl; lia].
Defined.

(** C2, refuted as stated: a sheet with one output cell left empty, on
    which the loop completes and the entry of that row is [nan], not the
    row's prompt followed by the marker, and no string at all. *)
Lemma empty_cell_gives_nan :
  well_formed empty_cell_example = true /\
  build_full_text empty_cell_example = Ok [Str "P1 O1<|eot_id|>"; NaN] /\
  cell empty_cell_example "full_prompt cats" 1 = Str "P2 " /\
  nth (0 * nrows empty_cell_example + 1) [Str "P1 O1<|eot_id|>"; NaN] NaN
  <> Str "P2 <|eot_id|>" /\
  forall s, nth (0 * nrows empty_cell_example + 1) [Str "P1 O1<|eot_id|>"; NaN] NaN
            <> Str s.
Proof.
  repeat split; try reflexivity; cbn; discriminate.
Qed.

(** C4, as the notebook has it.  With no column that [re.match] accepts,
    nothing checks the topic list: [full_text] is built empty and the
    dataset without rows, and no exception is raised. *)
Theorem no_topics_no_error (df : DataFrame) :
  (forall c, In c (columns df) -> re_match_lit_dot_star output_prefix c = None) ->
  build_full_text df = Ok [] /\
  build_dataset df = Ok [("text", [])] /\
  ~ raises (build_full_text df) /\ ~ raises (build_dataset df).
Proof.
  intros H. unfold build_dataset, build_full_text.
  rewrite (topics_nil df H). cbn.
  repeat split; try (intros [e He]; discriminate He).
Qed.

Lemma no_topics_no_error_witness :
  build_full_text prompts_only_example = Ok [] /\
  build_dataset prompts_only_example = Ok [("text", [])] /\
  ~ raises (build_full_text prompts_only_example) /\
  ~ raises (build_dataset prompts_only_example).
Proof.
  apply (no_topics_no_error prompts_only_example).
  intros c [<-|[<-|[]]]; reflexivity.
Defined.

(** C4, refuted as stated: a sheet without any [inference_output] column
    on which the construction does not fail. *)
Lemma no_topics_does_not_fail :
  (forall c, In c (columns prompts_only_example) ->
     re_match_lit_dot_star output_prefix c = None) /\
  build_dataset prompts_only_example = Ok [("text", [])] /\
  ~ raises (build_dataset prompts_only_example).
Proof.
  split; [intros c [<-|[<-|[]]]; reflexivity|].
  split; [reflexivity|]. intros [e He]. discriminate He.
Qed.

(** C5.  When no column label starts with [inference_output ], the builder
    completes: [full_text] is the empty list and the dataset made from it
    has no rows. *)
Theorem no_topics_empty_dataset (df : DataFrame) :
  (forall c, In c (columns df) -> startswith output_prefix c = false) ->
  exists full_text ds,
    build_full_text df = Ok full_text /\ List.length full_text = 0 /\
    build_dataset df = Ok ds /\ num_rows ds = 0.
Proof.
  intros H.
  assert (Ht : topics df = []).
  { apply topics_nil. intros c Hc. unfold re_match_lit_dot_star. now rewrite (H c Hc). }
  exists [], [("text", [])].
  unfold build_dataset, build_full_text. rewrite Ht. cbn. auto.
Qed.

Lemma no_topics_empty_dataset_witness :
  exists full_text ds,
    build_full_text prompts_only_example = Ok full_text /\
    List.length full_text = 0 /\
    build_dataset prompts_only_example = Ok ds /\ num_rows ds = 0.
Proof.
  apply (no_topics_empty_dataset prompts_only_example).
  intros c [<-|[<-|[]]]; reflexivity.
Defined.









End DatasetBuilderSpec.

(** ** The notebook's writes to the tokenizer and to [use_cache] *)

Module NotebookFacts.

Import Pandas DatasetBuilder Notebook.

Local Arguments build_dataset : simpl never.
Local Arguments bound : simpl never.
Local Arguments first_unbound : simpl never.

Section Invariants.

Variable hub_tokenizer : result Tokenizer.
Variable edited_df : DataFrame.
Variable library_fails : string -> bool.
Variable config_of : handle -> nat.
Variable train_steps : nat.

Local Abbreviation exec :=
  (Notebook.exec hub_tokenizer edited_df library_fails config_of train_steps).
Local Abbreviation run :=
  (Notebook.run hub_tokenizer edited_df library_fails config_of train_steps).
Local Abbreviation train_loop := (Notebook.train_loop config_of).
Local Abbreviation make_trainer := (Notebook.make_trainer library_fails).

Lemma run_app (p q : list stmt) (st : state) :
  run (p ++ q) st =
  match run p st with
  | (st', None) => run q st'
  | (st', Some e) => (st', Some e)
  end.
Proof.
  revert st; induction p as [|s p IH]; intros st; [reflexivity|].
  cbn [app Notebook.run]. destruct (exec s st) as [st' [e|]]; [reflexivity | apply IH].
Qed.

Lemma events_since_app (st st' : state) (l : list event) :
  trace st' = trace st ++ l -> events_since st st' = l.
Proof.
  intros H. unfold events_since. rewrite H. clear H.
  induction (trace st) as [|e tr IH]; [reflexivity | exact IH].
Qed.

(** The training loop appends its batches and leaves the rest alone. *)
Lemma train_loop_spec (n a : nat) (st : state) :
  objects (train_loop n a st) = objects st /\
  tokenizer (train_loop n a st) = tokenizer st /\
  trainer (train_loop n a st) = trainer st /\
  names (train_loop n a st) = names st /\
  use_cache (train_loop n a st) = use_cache st /\
  trace (train_loop n a st) =
    trace st ++
    concat (repeat (batch (objects st a)
                          (use_cache st (config_of model))
                          (use_cache st (config_of model_for_training))) n).
Proof.
  revert st; induction n as [|n IH]; intros st; cbn [Notebook.train_loop repeat concat].
  - now rewrite app_nil_r.
  - destruct (IH (train_step config_of a st)) as (Ho & Ht & Hr & Hn & Hu & Htr).
    rewrite Ho, Ht, Hr, Hn, Hu, Htr. cbn. rewrite <- !app_assoc. auto 6.
Qed.

Lemma batches_padded (t : Tokenizer) (b w : bool) (n : nat) :
  pad_token t = eos_token t ->
  Forall padded_with_eos (concat (repeat (batch t b w) n)).
Proof.
  intros H. induction n as [|n IH]; cbn; [constructor|].
  repeat constructor; [exact H | exact IH].
Qed.

Lemma batches_cache_off (t : Tokenizer) (n : nat) :
  Forall cache_off (concat (repeat (batch t false false) n)).
Proof.
  induction n as [|n IH]; cbn; [constructor|].
  repeat constructor; [cbn; auto .. | exact IH].
Qed.

(** *** The padding token *)

Lemma make_trainer_tokenizer_ready (st : state) :
  tokenizer_ready st -> tokenizer_ready (fst (make_trainer st)).
Proof.
  intros Hst. unfold Notebook.make_trainer.
  destruct (first_unbound st _); [exact Hst|].
  destruct (tokenizer st) as [a|] eqn:Ea; [|exact Hst].
  destruct (first_unbound st _); [exact Hst|].
  destruct Hst as [Htok Htr].
  assert (Ha : pad_token (objects st a) = eos_token (objects st a))
    by (apply Htok; now left).
  assert (Hone : tokenizer_ready (log (UsesTokenizer (objects st a)) st)).
  { split; [exact Htok|]. cbn. apply Forall_app. split; [exact Htr|].
    repeat constructor. exact Ha. }
  destruct (first_unbound _ _); [exact Hone|].
  destruct (library_fails "SFTTrainer"); [exact Hone|].
  unfold tokenizer_ready. cbn. split.
  - intros a' [Ha'|Ha'].
    + apply Htok. now left.
    + injection Ha' as <-. exact Ha.
  - apply Forall_app. split; [apply Hone|]. repeat constructor. exact Ha.
Qed.

Lemma exec_tokenizer_ready (s : stmt) (st : state) :
  rebinds_tokenizer s = false ->
  tokenizer_ready st -> tokenizer_ready (fst (exec s st)).
Proof.
  intros Hs Hst. destruct s; try discriminate Hs; cbn [Notebook.exec].
  - (* tokenizer.pad_token = tokenizer.eos_token *)
    destruct (tokenizer st) as [a|] eqn:Ea; [|exact Hst].
    destruct Hst as [Htok Htr].
    unfold tokenizer_ready, done, store. cbn. split; [|exact Htr]. intros a' Ha'.
    destruct (Nat.eqb a' a); [reflexivity | now apply Htok].
  - destruct (build_dataset edited_df); exact Hst.
  - now apply make_trainer_tokenizer_ready.
  - destruct (bound st (handle_name h)); exact Hst.
  - (* trainer.train() *)
    destruct (trainer st) as [a|] eqn:Ea; [|exact Hst].
    destruct Hst as [Htok Htr].
    destruct (train_loop_spec train_steps a st) as (Ho & Ht & Hr & _ & _ & Hl).
    assert (tokenizer_ready (train_loop train_steps a st)) as Hready.
    { split.
      - rewrite Ho, Ht, Hr. exact Htok.
      - rewrite Hl. apply Forall_app. split; [exact Htr|].
        apply batches_padded. apply Htok. now right. }
    destruct (library_fails "trainer.train"); exact Hready.
  - destruct (first_unbound st reads); [exact Hst|].
    destruct (library_fails call); [exact Hst|].
    destruct binds; exact Hst.
Qed.

Lemma run_tokenizer_ready (p : list stmt) (st : state) :
  forallb (fun s => negb (rebinds_tokenizer s)) p = true ->
  tokenizer_ready st -> tokenizer_ready (fst (run p st)).
Proof.
  revert st; induction p as [|s p IH]; intros st Hp Hst; [exact Hst|].
  cbn [forallb] in Hp. apply andb_true_iff in Hp as [Hs Hp].
  apply negb_true_iff in Hs.
  pose proof (exec_tokenizer_ready s st Hs Hst) as H1.
  cbn [Notebook.run]. destruct (exec s st) as [st' [e|]]; [exact H1|].
  now apply IH.
Qed.

(** *** The caching flags *)

Lemma make_trainer_never_trained (st : state) :
  never_trained st -> never_trained (fst (make_trainer st)).
Proof.
  unfold never_trained, Notebook.make_trainer. intros Htr.
  destruct (first_unbound st _); [exact Htr|].
  destruct (tokenizer st) as [a|]; [|exact Htr].
  destruct (first_unbound st _); [exact Htr|].
  assert (Hone : Forall cache_off (trace st ++ [UsesTokenizer (objects st a)])).
  { apply Forall_app. split; [exact Htr|]. repeat constructor. }
  destruct (first_unbound _ _); [exact Hone|].
  destruct (library_fails "SFTTrainer"); [exact Hone|].
  cbn. apply Forall_app. split; [exact Hone|]. repeat constructor.
Qed.

Lemma exec_never_trained (s : stmt) (st : state) :
  trains s = false -> never_trained st -> never_trained (fst (exec s st)).
Proof.
  intros Hs Htr. destruct s; try discriminate Hs; cbn [Notebook.exec].
  - destruct hub_tokenizer; exact Htr.
  - destruct (tokenizer st); exact Htr.
  - destruct (build_dataset edited_df); exact Htr.
  - now apply make_trainer_never_trained.
  - destruct (bound st (handle_name h)); exact Htr.
  - destruct (first_unbound st reads); [exact Htr|].
    destruct (library_fails call); [exact Htr|].
    destruct binds; exact Htr.
Qed.

Lemma run_never_trained (p : list stmt) (st : state) :
  forallb (fun s => negb (trains s)) p = true ->
  never_trained st -> never_trained (fst (run p st)).
Proof.
  revert st; induction p as [|s p IH]; intros st Hp Hst; [exact Hst|].
  cbn [forallb] in Hp. apply andb_true_iff in Hp as [Hs Hp].
  apply negb_true_iff in Hs.
  pose proof (exec_never_trained s st Hs Hst) as H1.
  cbn [Notebook.run]. destruct (exec s st) as [st' [e|]]; [exact H1|].
  now apply IH.
Qed.

(** With both handles bound, the two assignments go through and leave both
    flags off, whether the handles share a configuration object or not. *)
Lemma disable_cache_spec (st : state) :
  bound st "model" = true -> bound st "model_for_training" = true ->
  exists armed,
    run disable_cache st = (armed, None) /\
    objects armed = objects st /\ trainer armed = trainer st /\
    names armed = names st /\ trace armed = trace st /\
    use_cache armed (config_of model) = false /\
    use_cache armed (config_of model_for_training) = false.
Proof.
  intros Hm Hw. unfold disable_cache. cbn [Notebook.run Notebook.exec handle_name].
  rewrite Hm. unfold done.
  change (bound (write_use_cache (config_of model) false st) "model_for_training")
    with (bound st "model_for_training").
  rewrite Hw. eexists. split; [reflexivity|]. cbn. rewrite !Nat.eqb_refl.
  repeat split. now destruct (Nat.eqb _ _).
Qed.

(** The events of "Train the Model", from any state: nothing when a name
    is unbound, else as many batches as the trainer runs, each with caching
    off on both handles. *)
Lemma train_cell_events (st : state) :
  exists n t,
    trace (fst (run train_cell st))
    = trace st ++ concat (repeat (batch t false false) n) /\
    (bound st "model" = true -> bound st "model_for_training" = true ->
     forall a, trainer st = Some a -> n = train_steps /\ t = objects st a).
Proof.
  unfold train_cell. rewrite run_app.
  destruct (bound st "model") eqn:Hm.
  2:{ exists 0, (objects st 0). split; [|discriminate].
      cbn [disable_cache Notebook.run Notebook.exec handle_name]. rewrite Hm.
      cbn. now rewrite app_nil_r. }
  destruct (bound st "model_for_training") eqn:Hw.
  2:{ exists 0, (objects st 0). split; [|discriminate].
      cbn [disable_cache Notebook.run Notebook.exec handle_name]. rewrite Hm.
      unfold done.
      change (bound (write_use_cache (config_of model) false st) "model_for_training")
        with (bound st "model_for_training").
      rewrite Hw. cbn. now rewrite app_nil_r. }
  destruct (disable_cache_spec st Hm Hw) as (armed & Hrun & Ho & Hr & Hn & Htr & Hfm & Hfw).
  rewrite Hrun. cbn [Notebook.run Notebook.exec]. rewrite Hr.
  destruct (trainer st) as [a|].
  2:{ exists 0, (objects st 0). split; [|discriminate].
      cbn. now rewrite Htr, app_nil_r. }
  exists train_steps, (objects st a).
  split; [|intros _ _ a' [= <-]; now split].
  destruct (train_loop_spec train_steps a armed) as (_ & _ & _ & Hn' & _ & Hl).
  rewrite Hfm, Hfw, Htr, Ho in Hl.
  destruct (library_fails "trainer.train"); [exact Hl|].
  unfold done.
  change (first_unbound (train_loop train_steps a armed) []) with (@None string).
  cbn iota.
  destruct (library_fails "torch.cuda.empty_cache"); [exact Hl|].
  cbn [handle_name].
  set (trained := train_loop train_steps a armed) in *.
  assert (Hbm : bound trained "model" = true).
  { unfold bound in *. cbn in *. now rewrite Hn', Hn. }
  assert (Hbw : bound trained "model_for_training" = true).
  { unfold bound in *. cbn in *. now rewrite Hn', Hn. }
  rewrite Hbm.
  change (bound (write_use_cache (config_of model) true trained) "model_for_training")
    with (bound trained "model_for_training").
  rewrite Hbw. exact Hl.
Qed.

Lemma train_cell_never_trained (st : state) :
  never_trained st -> never_trained (fst (run train_cell st)).
Proof.
  intros Htr. destruct (train_cell_events st) as (n & t & He & _).
  unfold never_trained. rewrite He.
  apply Forall_app. split; [exact Htr | apply batches_cache_off].
Qed.

(** Going through a run on unknown surroundings, one decision at a time. *)
Ltac run_cases H :=
  cbv -[build_dataset] in H;
  repeat
    (match type of H with
     | context [match hub_tokenizer with _ => _ end] =>
         destruct hub_tokenizer eqn:?
     | context [if library_fails ?x then _ else _] =>
         destruct (library_fails x) eqn:?
     | context [match build_dataset ?d with _ => _ end] =>
         destruct (build_dataset d) eqn:?
     end; try discriminate H).

(** C8.  When the "Load Model" cell completes, the global tokenizer is the
    one the hub served with its padding token overwritten by its
    end-of-sequence token; no component has seen the tokenizer before that,
    and every component that receives it in the cells that follow (the
    collator, the trainer, each training batch) receives it with the
    padding token equal to the end-of-sequence token. *)
Theorem loader_pads_with_eos (initial_use_cache : nat -> bool) (loaded : state) :
  run load_model_cell (fresh initial_use_cache) = (loaded, None) ->
  (exists served a,
     hub_tokenizer = Ok served /\ tokenizer loaded = Some a /\
     eos_token (objects loaded a) = eos_token served /\
     pad_token (objects loaded a) = eos_token (objects loaded a)) /\
  trace loaded = [] /\
  Forall padded_with_eos (trace (fst (run after_loader loaded))).
Proof.
  intros Hrun.
  assert (Hloaded :
    (exists served a,
       hub_tokenizer = Ok served /\ tokenizer loaded = Some a /\
       eos_token (objects loaded a) = eos_token served /\
       pad_token (objects loaded a) = eos_token (objects loaded a)) /\
    trace loaded = []).
  { run_cases Hrun. injection Hrun as <-.
    split; [|reflexivity]. eexists _, 0. repeat split. }
  destruct Hloaded as [(served & a & Hs & Ha & He & Hp) Htr].
  split; [now exists served, a|]. split; [exact Htr|].
  apply run_tokenizer_ready; [reflexivity|].
  split; [|rewrite Htr; constructor].
  intros a' [Ha'|Ha'].
  - rewrite Ha in Ha'. now injection Ha' as <-.
  - exfalso. clear -Hrun Ha'. run_cases Hrun. injection Hrun as <-. discriminate Ha'.
Qed.

(** C9.  When the cells before "Train the Model" have completed, the cell
    first writes [use_cache = False] through both handles, so that both
    flags are off when [trainer.train()] is entered, whether or not the
    handles share one configuration object; the cell's events are the
    trainer's batches, each run with both flags off, and the flags are
    written [True] again only after the trainer has returned.  No forward
    pass of a notebook run from a fresh kernel sees a flag on. *)
Theorem use_cache_off_while_training (initial_use_cache : nat -> bool) (ready : state) :
  run before_training (fresh initial_use_cache) = (ready, None) ->
  (exists armed,
     run disable_cache ready = (armed, None) /\
     use_cache armed (config_of model) = false /\
     use_cache armed (config_of model_for_training) = false /\
     trace armed = trace ready) /\
  (exists a,
     trainer ready = Some a /\
     events_since ready (fst (run train_cell ready))
     = concat (repeat (batch (objects ready a) false false) train_steps)) /\
  Forall cache_off (trace (fst (run notebook (fresh initial_use_cache)))).
Proof.
  intros Hrun.
  assert (Hready : bound ready "model" = true /\
                   bound ready "model_for_training" = true /\
                   trainer ready = Some 0).
  { run_cases Hrun. injection Hrun as <-. repeat split. }
  destruct Hready as (Hm & Hw & Ht).
  split; [|split].
  - destruct (disable_cache_spec ready Hm Hw) as (armed & Ha & _ & _ & _ & Htr & Hfm & Hfw).
    exists armed. auto.
  - exists 0. split; [exact Ht|].
    destruct (train_cell_events ready) as (n & t & He & Hnt).
    destruct (Hnt Hm Hw 0 Ht) as [-> ->].
    now apply events_since_app.
  - change notebook with (before_training ++ train_cell ++ save_cell).
    rewrite run_app.
    pose proof (run_never_trained before_training (fresh initial_use_cache)
                  eq_refl (Forall_nil _)) as Hpre.
    rewrite Hrun in *. cbn [fst] in Hpre. rewrite run_app.
    pose proof (train_cell_never_trained ready Hpre) as Htrain.
    destruct (run train_cell ready) as [st2 [e|]]; [exact Htrain|].
    now apply run_never_trained.
Qed.

End Invariants.

End NotebookFacts.

Module NotebookSpec.

Import Pandas DatasetBuilder Notebook NotebookFacts.

Lemma loader_pads_with_eos_witness :
  (exists served a,
     Ok llama_tokenizer = Ok served /\ tokenizer loaded_example = Some a /\
     eos_token (objects loaded_example a) = eos_token served /\
     pad_token (objects loaded_example a) = eos_token (objects loaded_example a)) /\
  trace loaded_example = [] /\
  Forall padded_with_eos (trace (fst (example_run after_loader loaded_example))).
Proof.
  apply (loader_pads_with_eos (Ok llama_tokenizer) reddit_example (fun _ => false)
           shared_config 2 (fun _ => true) loaded_example).
  vm_compute. reflexivity.
Defined.

Lemma use_cache_off_while_training_witness :
  (exists armed,
     example_run disable_cache ready_example = (armed, None) /\
     use_cache armed (shared_config model) = false /\
     use_cache armed (shared_config model_for_training) = false /\
     trace armed = trace ready_example) /\
  (exists a,
     trainer ready_example = Some a /\
     events_since ready_example (fst (example_run train_cell ready_example))
     = concat (repeat (batch (objects ready_example a) false false) 2)) /\
  Forall cache_off (trace (fst (example_run notebook (fresh (fun _ => true))))).
Proof.
  apply (use_cache_off_while_training (Ok llama_tokenizer) reddit_example
           (fun _ => false) shared_config 2 (fun _ => true) ready_example).
  vm_compute. reflexivity.
Defined.

(** Two batches on the example sheet: the collator and the trainer are
    built, then each batch pads with [<|eot_id|>] and runs with caching
    off; afterwards both flags are on again. *)
Example notebook_two_batches :
  let final := fst (run (Ok llama_tokenizer) reddit_example (fun _ => false)
                        separate_configs 2 notebook (fresh (fun _ => true))) in
  let t := mkTokenizer (Some "<|eot_id|>") (Some "<|eot_id|>") in
  trace final
  = [UsesTokenizer t; UsesTokenizer t] ++ batch t false false ++ batch t false false
  /\ use_cache final 0 = true /\ use_cache final 1 = true.
Proof. vm_compute. repeat split. Qed.

(** A trainer that fails leaves the cell before the flags are restored. *)
Example failed_training_leaves_cache_off :
  let r := run (Ok llama_tokenizer) reddit_example (String.eqb "trainer.train")
               separate_configs 2 notebook (fresh (fun _ => true)) in
  snd r = Some (LibraryError "trainer.train")
  /\ use_cache (fst r) 0 = false /\ use_cache (fst r) 1 = false.
Proof. vm_compute. repeat split. Qed.

End NotebookSpec.

(** ** More on the dataset builder: topics, failures, what is ignored *)

Module DatasetBuilderMore.

Import Py Pandas DatasetBuilder BuilderState PyFacts PandasFacts DatasetBuilderFacts.

Local Arguments String.append : simpl never.

Lemma nodupb_NoDup (l : list string) :
  nodupb l = true -> NoDup l.
Proof.
  induction l as [|x l IH]; simpl; intros H; constructor.
  - apply andb_true_iff in H as [H _]. apply negb_true_iff in H.
    intros Hin. assert (existsb (String.eqb x) l = true) as E; [|congruence].
    apply existsb_exists. exists x. split; [exact Hin | apply String.eqb_refl].
  - apply andb_true_iff in H as [_ H]. now apply IH.
Qed.

Lemma well_formed_NoDup (df : DataFrame) :
  well_formed df = true -> NoDup (columns df).
Proof.
  unfold well_formed. intros H. apply andb_true_iff in H as [_ H].
  now apply nodupb_NoDup.
Qed.

(** With unique labels, a label leads to its own column. *)
Lemma lookup_own (l : list (string * Series)) (key : string) (s : Series) :
  NoDup (map fst l) -> In (key, s) l -> lookup key l = Some s.
Proof.
  induction l as [|[name c] l IH]; simpl; intros Hnd Hin; [destruct Hin|].
  inversion Hnd as [|? ? Hnot Hnd']; subst.
  destruct Hin as [[= -> ->]|Hin].
  - now rewrite String.eqb_refl.
  - destruct (String.eqb name key) eqn:E; [|now apply IH].
    apply String.eqb_eq in E. subst name. exfalso. apply Hnot.
    now apply (in_map fst) in Hin.
Qed.

Lemma removeprefix_inj (p c1 c2 : string) :
  startswith p c1 = true -> startswith p c2 = true ->
  removeprefix p c1 = removeprefix p c2 -> c1 = c2.
Proof.
  intros H1 H2 H.
  rewrite <- (removeprefix_restore p c1 H1), <- (removeprefix_restore p c2 H2).
  now rewrite H.
Qed.

(** The loop up to the first topic without its prompt column, the topics
    before it going through. *)
Lemma extend_loop_first_missing (df : DataFrame) (ts1 ts2 : list string)
      (acc : list scalar) (t : string) :
  (forall t', In t' ts1 ->
     In (prompt_prefix +:+ t') (columns df) /\ In (output_prefix +:+ t') (columns df) /\
     text_column (column df (prompt_prefix +:+ t')) = true /\
     text_column (column df (output_prefix +:+ t')) = true) ->
  ~ In (prompt_prefix +:+ t) (columns df) ->
  extend_loop df (ts1 ++ t :: ts2) acc = Raise (KeyError (prompt_prefix +:+ t)) /\
  extend_loop_state df (ts1 ++ t :: ts2) acc
  = (acc ++ flat_map (topic_text df) ts1, Some (KeyError (prompt_prefix +:+ t))).
Proof.
  revert acc; induction ts1 as [|t0 ts1 IH]; intros acc Hall Hno.
  - cbn [app extend_loop extend_loop_state flat_map]. unfold getitem.
    apply lookup_none_iff in Hno. rewrite Hno. cbn. now rewrite app_nil_r.
  - destruct (Hall t0 (or_introl eq_refl)) as (Hp & Ho & Htp & Hto).
    apply lookup_in_columns in Hp as [p Hp], Ho as [o Ho].
    unfold column in Htp, Hto. rewrite Hp in Htp. rewrite Ho in Hto.
    destruct (text_series_ok p o Htp Hto) as (s & tt & Hs & Htt).
    cbn [app extend_loop extend_loop_state flat_map]. unfold getitem.
    rewrite Hp, Ho. cbn [bind]. rewrite Hs. cbn [bind]. rewrite Htt. cbn [bind].
    destruct (IH (acc ++ rows tt)) as [H1 H2];
      [intros t' Ht'; apply Hall; now right | exact Hno |].
    rewrite H1, H2. split; [reflexivity|].
    rewrite <- app_assoc. unfold topic_text at 2, column. rewrite Hp, Ho.
    now rewrite (series_ok_rows p o s tt Hs Htt).
Qed.

(** A failed loop failed on a [+], or at a first topic without its prompt
    column. *)
Lemma extend_loop_raise_inv (df : DataFrame) (ts : list string) (acc : list scalar)
      (e : exn) :
  (forall t, In t ts -> In (output_prefix +:+ t) (columns df)) ->
  extend_loop df ts acc = Raise e ->
  e = TypeError \/
  exists ts1 t ts2,
    ts = ts1 ++ t :: ts2 /\
    (forall t', In t' ts1 -> In (prompt_prefix +:+ t') (columns df)) /\
    ~ In (prompt_prefix +:+ t) (columns df) /\
    e = KeyError (prompt_prefix +:+ t).
Proof.
  revert acc; induction ts as [|t0 ts IH]; intros acc Hout H; [discriminate H|].
  cbn [extend_loop] in H. unfold getitem in H.
  destruct (lookup (prompt_prefix +:+ t0) (cols df)) as [p|] eqn:Hp; cbn [bind] in H.
  - pose proof (Hout t0 (or_introl eq_refl)) as Ho.
    apply lookup_in_columns in Ho as [o Ho]. rewrite Ho in H. cbn [bind] in H.
    destruct (series_add p o) as [s|e'] eqn:Hs; cbn [bind] in H;
      [|left; injection H as <-; now apply (series_add_raise p o)].
    destruct (series_add_str s eot) as [tt|e'] eqn:Htt; cbn [bind] in H;
      [|left; injection H as <-; now apply (series_add_str_raise s eot)].
    apply IH in H as [->|(ts1 & t & ts2 & -> & Hall & Hno & ->)];
      [now left | |intros t' Ht'; apply Hout; now right].
    right. exists (t0 :: ts1), t, ts2. split; [reflexivity|]. split; [|now split].
    intros t' [<-|Ht']; [|now apply Hall].
    apply lookup_some_in in Hp. now apply (in_map fst) in Hp.
  - injection H as <-. right. exists [], t0, ts. split; [reflexivity|].
    split; [intros t' []|]. split; [now apply lookup_none_iff | reflexivity].
Qed.

(** X1.  On a frame with unique labels no topic is detected twice: the
    topic list has one entry per [inference_output ] column, all
    different. *)
Theorem topics_distinct (df : DataFrame) :
  well_formed df = true -> NoDup (topics df).
Proof.
  intros Hwf. unfold topics.
  apply NoDup_map_NoDup_ForallPairs;
    [|apply NoDup_filter; now apply well_formed_NoDup].
  intros c1 c2 H1 H2 Heq.
  apply filter_In in H1 as [_ H1], H2 as [_ H2].
  rewrite re_match_truthy in H1, H2.
  now apply (removeprefix_inj output_prefix).
Qed.

Lemma topics_distinct_witness : NoDup (topics reddit_example).
Proof. apply (topics_distinct reddit_example). reflexivity. Defined.

(** X2.  On a sheet whose topic columns hold text, the loop over the
    topics completes exactly when every detected topic has its
    [full_prompt {TOPIC}] column. *)
Theorem completes_iff_convention (df : DataFrame) :
  text_topics df = true ->
  (completes (build_full_text df) <-> follows_convention df = true).
Proof.
  intros Htf. split.
  - intros [l Hb]. unfold build_full_text in Hb.
    apply extend_loop_inv in Hb as [_ Hall].
    unfold follows_convention. apply forallb_forall. intros t Ht.
    apply existsb_exists. exists (prompt_prefix +:+ t).
    split; [now apply Hall | apply String.eqb_refl].
  - intros H. unfold completes, build_full_text.
    rewrite extend_loop_ok; [eauto|].
    intros t Ht. destruct (text_topics_in df t Htf Ht) as [Hp Ho].
    split; [now apply follows_convention_in|]. split; [now apply topics_in|].
    now split.
Qed.

Lemma completes_iff_convention_witness :
  completes (build_full_text reddit_example)
  <-> follows_convention reddit_example = true.
Proof. apply (completes_iff_convention reddit_example). reflexivity. Defined.

(** X3.  When the construction of the dataset fails, it is on the
    [TypeError] of a [+], on the Arrow exception of [Dataset.from_dict], or
    on the [KeyError] of the [full_prompt] label of the first topic in
    column order that lacks its prompt column; it is never the error of an
    [inference_output] label. *)
Theorem fails_at_first_missing_prompt (df : DataFrame) (e : exn) :
  build_dataset df = Raise e ->
  e = TypeError \/ e = ArrowException \/
  exists ts1 t ts2,
    topics df = ts1 ++ t :: ts2 /\
    (forall t', In t' ts1 -> In (prompt_prefix +:+ t') (columns df)) /\
    ~ In (prompt_prefix +:+ t) (columns df) /\
    e = KeyError (prompt_prefix +:+ t).
Proof.
  unfold build_dataset. intros H.
  destruct (build_full_text df) as [l|e'] eqn:Hb; cbn [bind] in H.
  - right. left. unfold from_dict in H.
    destruct (forallb _ _); [discriminate H | now injection H as <-].
  - injection H as <-. unfold build_full_text in Hb.
    apply extend_loop_raise_inv in Hb as [->|Hk]; [now left | now right; right|].
    intros t Ht. now apply topics_in.
Qed.

Lemma fails_at_first_missing_prompt_witness :
  KeyError "full_prompt dogs" = TypeError \/
  KeyError "full_prompt dogs" = ArrowException \/
  exists ts1 t ts2,
    topics two_missing_example = ts1 ++ t :: ts2 /\
    (forall t', In t' ts1 -> In (prompt_prefix +:+ t') (columns two_missing_example)) /\
    ~ In (prompt_prefix +:+ t) (columns two_missing_example) /\
    KeyError "full_prompt dogs" = KeyError (prompt_prefix +:+ t).
Proof.
  apply (fails_at_first_missing_prompt two_missing_example). reflexivity.
Defined.

(** X4.  On a sheet whose topic columns hold text, when the lookup of a
    prompt column fails, [full_text] is left holding the entries of the topics
    before the failing one, [nrows] for each, and nothing of the topics
    after it. *)
Theorem failure_leaves_partial_full_text (df : DataFrame) (ts1 ts2 : list string) (t : string) :
  well_formed df = true ->
  text_topics df = true ->
  topics df = ts1 ++ t :: ts2 ->
  (forall t', In t' ts1 -> In (prompt_prefix +:+ t') (columns df)) ->
  ~ In (prompt_prefix +:+ t) (columns df) ->
  full_text_after df
  = (flat_map (topic_text df) ts1, Some (KeyError (prompt_prefix +:+ t))) /\
  List.length (fst (full_text_after df)) = List.length ts1 * nrows df.
Proof.
  intros Hwf Htf Hts Hall Hno.
  assert (Hboth : forall t', In t' ts1 ->
            In (prompt_prefix +:+ t') (columns df) /\
            In (output_prefix +:+ t') (columns df)).
  { intros t' Ht'. split; [now apply Hall|].
    apply topics_in. rewrite Hts. apply in_or_app. now left. }
  assert (Hok : forall t', In t' ts1 ->
            In (prompt_prefix +:+ t') (columns df) /\
            In (output_prefix +:+ t') (columns df) /\
            text_column (column df (prompt_prefix +:+ t')) = true /\
            text_column (column df (output_prefix +:+ t')) = true).
  { intros t' Ht'. destruct (Hboth t' Ht') as [Hp Ho].
    split; [exact Hp|]. split; [exact Ho|].
    apply text_topics_in; [exact Htf|]. rewrite Hts. apply in_or_app. now left. }
  assert (H : full_text_after df
              = (flat_map (topic_text df) ts1, Some (KeyError (prompt_prefix +:+ t)))).
  { unfold full_text_after. rewrite Hts.
    now destruct (extend_loop_first_missing df ts1 ts2 [] t Hok Hno) as [_ ->]. }
  split; [exact H|]. rewrite H. cbn [fst].
  apply flat_map_length_uniform. intros t' Ht'.
  destruct (Hboth t' Ht'). now apply topic_text_length.
Qed.

Lemma failure_leaves_partial_full_text_witness :
  full_text_after two_missing_example
  = (flat_map (topic_text two_missing_example) ["cats"],
     Some (KeyError (prompt_prefix +:+ "dogs"))) /\
  List.length (fst (full_text_after two_missing_example))
  = List.length ["cats"] * nrows two_missing_example.
Proof.
  apply (failure_leaves_partial_full_text two_missing_example ["cats"] ["birds"] "dogs").
  - reflexivity.
  - reflexivity.
  - reflexivity.
  - intros t' [<-|[]]. left. reflexivity.
  - intros [H|[H|[H|[H|[]]]]]; discriminate H.
Defined.

Lemma join_rows_marked (a b : list scalar) :
  Forall (fun x => x = NaN \/ exists body, x = Str (body +:+ "<|eot_id|>"))
         (join_rows a b).
Proof.
  revert b; induction a as [|x a IH]; intros [|y b]; cbn [join_rows];
    try constructor; [|apply IH].
  destruct x, y; cbn; auto. right. eauto.
Qed.

(** X5.  When the loop completes, every entry of [full_text] is a string
    that ends with the end-of-turn marker, or [nan]. *)
Theorem every_string_ends_with_eot (df : DataFrame) (full_text : list scalar) :
  build_full_text df = Ok full_text ->
  Forall (fun x => x = NaN \/ exists body, x = Str (body +:+ "<|eot_id|>")) full_text.
Proof.
  intros H. unfold build_full_text in H.
  apply extend_loop_inv in H as [-> _]. rewrite app_nil_l.
  apply Forall_flat_map, Forall_forall. intros t _.
  unfold topic_text. apply join_rows_marked.
Qed.

Lemma every_string_ends_with_eot_witness :
  Forall (fun x => x = NaN \/ exists body, x = Str (body +:+ "<|eot_id|>"))
         [Str "P1 O1<|eot_id|>"; NaN].
Proof.
  apply (every_string_ends_with_eot empty_cell_example). reflexivity.
Defined.

End DatasetBuilderMore.

(** ** More on the dataset builder: columns outside the convention, empty
    sheets, numbers and missing cells *)

Module DatasetBuilderEdges.

Import Py Pandas DatasetBuilder BuilderState PyFacts PandasFacts DatasetBuilderFacts.

Local Arguments String.append : simpl never.

Lemma topics_drop_column (n : nat) (l1 l2 : list (string * Series))
      (k : string) (s : Series) :
  startswith output_prefix k = false ->
  topics (mkDataFrame n (l1 ++ (k, s) :: l2)) = topics (mkDataFrame n (l1 ++ l2)).
Proof.
  intros Hk. unfold topics, columns. cbn [cols].
  rewrite !map_app, !filter_app. cbn [map filter fst].
  now rewrite re_match_truthy, Hk.
Qed.

Lemma extend_loop_drop_column (n : nat) (l1 l2 : list (string * Series))
      (k : string) (s : Series) (ts : list string) (acc : list scalar) :
  startswith output_prefix k = false ->
  (forall t, In t ts -> k <> prompt_prefix +:+ t) ->
  extend_loop (mkDataFrame n (l1 ++ (k, s) :: l2)) ts acc
  = extend_loop (mkDataFrame n (l1 ++ l2)) ts acc.
Proof.
  intros Hk. revert acc; induction ts as [|t ts IH]; intros acc Hne; [reflexivity|].
  cbn [extend_loop]. unfold getitem. cbn [cols].
  rewrite !lookup_remove.
  - destruct (lookup (prompt_prefix +:+ t) (l1 ++ l2)); [|reflexivity].
    destruct (lookup (output_prefix +:+ t) (l1 ++ l2)); [|reflexivity].
    cbn [bind]. destruct (series_add _ _); [|reflexivity]. cbn [bind].
    destruct (series_add_str _ _); [|reflexivity]. cbn [bind].
    apply IH. intros t' Ht'. apply Hne. now right.
  - intros H. rewrite <- H, startswith_app in Hk. discriminate Hk.
  - intros H. apply (Hne t); [now left | now symmetry].
Qed.

(** X6.  A column whose label neither starts with [inference_output ] nor
    is the [full_prompt] label of a detected topic (an id, a date, a stray
    prompt) has no influence: the builder's outcome is the one of the frame
    without it. *)
Theorem other_columns_ignored (n : nat) (l1 l2 : list (string * Series))
        (k : string) (s : Series) :
  startswith output_prefix k = false ->
  (forall t, In t (topics (mkDataFrame n (l1 ++ l2))) -> k <> prompt_prefix +:+ t) ->
  topics (mkDataFrame n (l1 ++ (k, s) :: l2)) = topics (mkDataFrame n (l1 ++ l2)) /\
  build_dataset (mkDataFrame n (l1 ++ (k, s) :: l2))
  = build_dataset (mkDataFrame n (l1 ++ l2)).
Proof.
  intros Hk Hne.
  pose proof (topics_drop_column n l1 l2 k s Hk) as Ht.
  split; [exact Ht|].
  unfold build_dataset, build_full_text. rewrite Ht.
  now rewrite extend_loop_drop_column.
Qed.

Lemma other_columns_ignored_witness :
  topics (mkDataFrame 2
            ([] ++ ("id", text ["a1"; "b2"])
                :: [("full_prompt cats", text ["P1 "; "P2 "]);
                    ("inference_output cats", text ["O1"; "O2"]);
                    ("full_prompt dogs", text ["Q1 "; "Q2 "]);
                    ("inference_output dogs", text ["R1"; "R2"])]))
  = topics (mkDataFrame 2
              ([] ++ [("full_prompt cats", text ["P1 "; "P2 "]);
                      ("inference_output cats", text ["O1"; "O2"]);
                      ("full_prompt dogs", text ["Q1 "; "Q2 "]);
                      ("inference_output dogs", text ["R1"; "R2"])])) /\
  build_dataset (mkDataFrame 2
            ([] ++ ("id", text ["a1"; "b2"])
                :: [("full_prompt cats", text ["P1 "; "P2 "]);
                    ("inference_output cats", text ["O1"; "O2"]);
                    ("full_prompt dogs", text ["Q1 "; "Q2 "]);
                    ("inference_output dogs", text ["R1"; "R2"])]))
  = build_dataset (mkDataFrame 2
              ([] ++ [("full_prompt cats", text ["P1 "; "P2 "]);
                      ("inference_output cats", text ["O1"; "O2"]);
                      ("full_prompt dogs", text ["Q1 "; "Q2 "]);
                      ("inference_output dogs", text ["R1"; "R2"])])).
Proof.
  apply (other_columns_ignored 2 [] _ "id" (text ["a1"; "b2"])).
  - reflexivity.
  - intros t [<-|[<-|[]]] H; discriminate H.
Defined.

(** X7.  A sheet with its header but no rows goes through without an
    error even when it has topics: the builder completes with an empty
    [full_text] and a dataset without rows. *)
Theorem header_only_sheet_is_empty (df : DataFrame) :
  well_formed df = true ->
  follows_convention df = true ->
  nrows df = 0 ->
  build_full_text df = Ok [] /\
  exists ds, build_dataset df = Ok ds /\ num_rows ds = 0.
Proof.
  intros Hwf Hconv Hn.
  assert (Hall : forall t, In t (topics df) ->
            In (prompt_prefix +:+ t) (columns df) /\
            In (output_prefix +:+ t) (columns df) /\
            text_column (column df (prompt_prefix +:+ t)) = true /\
            text_column (column df (output_prefix +:+ t)) = true).
  { intros t Ht.
    assert (Hp : In (prompt_prefix +:+ t) (columns df))
      by now apply follows_convention_in.
    assert (Ho : In (output_prefix +:+ t) (columns df)) by now apply topics_in.
    split; [exact Hp|]. split; [exact Ho|].
    apply lookup_in_columns in Hp as [p Hp], Ho as [o Ho].
    pose proof (well_formed_length df _ p Hwf Hp) as Lp.
    pose proof (well_formed_length df _ o Hwf Ho) as Lo.
    rewrite Hn in Lp, Lo. apply length_zero_iff_nil in Lp, Lo. subst p o.
    unfold column. rewrite Hp, Ho. now split. }
  assert (Hnil : flat_map (topic_text df) (topics df) = []).
  { apply length_zero_iff_nil.
    rewrite (flat_map_length_uniform _ _ (nrows df)).
    - rewrite Hn. apply Nat.mul_0_r.
    - intros t Ht. destruct (Hall t Ht) as (Hp & Ho & _). now apply topic_text_length. }
  assert (Hb : build_full_text df = Ok []).
  { unfold build_full_text. rewrite extend_loop_ok by exact Hall. now rewrite Hnil. }
  split; [exact Hb|].
  unfold build_dataset. rewrite Hb. cbn. eauto.
Qed.

Lemma header_only_sheet_is_empty_witness :
  build_full_text header_only_example = Ok [] /\
  exists ds, build_dataset header_only_example = Ok ds /\ num_rows ds = 0.
Proof.
  apply (header_only_sheet_is_empty header_only_example); reflexivity.
Defined.

(** X8.  Rebuilding the label from the topic gives the column back: for a
    column that [re.match] accepts, [f"inference_output {topic}"] is its
    label again, the topic is detected, and on a frame with unique labels
    the lookup returns that very column, so the [inference_output] lookup
    of the loop cannot fail. *)
Theorem output_label_round_trip (df : DataFrame) (c : string) (o : Series) :
  well_formed df = true ->
  In (c, o) (cols df) ->
  truthy (re_match_lit_dot_star output_prefix c) = true ->
  output_prefix +:+ removeprefix output_prefix c = c /\
  In (removeprefix output_prefix c) (topics df) /\
  getitem df (output_prefix +:+ removeprefix output_prefix c) = Ok o.
Proof.
  intros Hwf Hin Hm. rewrite re_match_truthy in Hm.
  pose proof (removeprefix_restore output_prefix c Hm) as Hc.
  split; [exact Hc|]. split.
  - apply topics_in. rewrite Hc. now apply (in_map fst) in Hin.
  - rewrite Hc. unfold getitem.
    rewrite (DatasetBuilderMore.lookup_own (cols df) c o);
      [reflexivity | now apply DatasetBuilderMore.well_formed_NoDup | exact Hin].
Qed.

Lemma output_label_round_trip_witness :
  output_prefix +:+ removeprefix output_prefix "inference_output dogs"
  = "inference_output dogs" /\
  In (removeprefix output_prefix "inference_output dogs") (topics reddit_example) /\
  getitem reddit_example
    (output_prefix +:+ removeprefix output_prefix "inference_output dogs")
  = Ok (text ["R1"; "R2"]).
Proof.
  apply (output_label_round_trip reddit_example).
  - reflexivity.
  - cbn. auto 10.
  - reflexivity.
Defined.








End DatasetBuilderEdges.

(** ** More on the notebook: objects, flags and failures across a run *)

Module NotebookMore.

Import Pandas DatasetBuilder Notebook NotebookState NotebookFacts.

Local Arguments build_dataset : simpl never.
Local Arguments bound : simpl never.
Local Arguments first_unbound : simpl never.

Section Surroundings.

Variable hub_tokenizer : result Tokenizer.
Variable edited_df : DataFrame.
Variable library_fails : string -> bool.
Variable config_of : handle -> nat.
Variable train_steps : nat.

Local Abbreviation exec :=
  (Notebook.exec hub_tokenizer edited_df library_fails config_of train_steps).
Local Abbreviation run :=
  (Notebook.run hub_tokenizer edited_df library_fails config_of train_steps).
Local Abbreviation train_loop := (Notebook.train_loop config_of).
Local Abbreviation make_trainer := (Notebook.make_trainer library_fails).

(** The training loop only logs. *)
Lemma train_loop_keeps (n a : nat) (st : state) :
  next (train_loop n a st) = next st /\
  dataset (train_loop n a st) = dataset st /\
  forall x, bound (train_loop n a st) x = bound st x.
Proof.
  revert st; induction n as [|n IH]; intros st; cbn [Notebook.train_loop]; [auto|].
  destruct (IH (train_step config_of a st)) as (Hn & Hd & Hb).
  rewrite Hn, Hd. repeat split. intros x. now rewrite Hb.
Qed.

(** "Train the Model", statement by statement. *)
Lemma train_cell_run (st : state) :
  run train_cell st =
  if bound st "model" then
    if bound st "model_for_training" then
      match trainer st with
      | Some a =>
          let trained := train_loop train_steps a (armed config_of st) in
          if library_fails "trainer.train"
          then (trained, Some (LibraryError "trainer.train"))
          else if library_fails "torch.cuda.empty_cache"
               then (trained, Some (LibraryError "torch.cuda.empty_cache"))
               else (restored config_of trained, None)
      | None => (armed config_of st, Some (NameError "trainer"))
      end
    else (write_use_cache (config_of model) false st,
          Some (NameError "model_for_training"))
  else (st, Some (NameError "model")).
Proof.
  unfold train_cell, disable_cache.
  cbn [app Notebook.run Notebook.exec handle_name].
  destruct (bound st "model") eqn:Hm; [|reflexivity].
  unfold done.
  change (bound (write_use_cache (config_of model) false st) "model_for_training")
    with (bound st "model_for_training").
  destruct (bound st "model_for_training") eqn:Hw; [|reflexivity].
  fold (armed config_of st).
  change (trainer (armed config_of st)) with (trainer st).
  destruct (trainer st) as [a|]; [|reflexivity].
  cbn zeta. set (trained := train_loop train_steps a (armed config_of st)).
  destruct (library_fails "trainer.train"); [reflexivity|].
  change (first_unbound trained []) with (@None string). cbn iota.
  destruct (library_fails "torch.cuda.empty_cache"); [reflexivity|].
  destruct (train_loop_keeps train_steps a (armed config_of st)) as (_ & _ & Hb).
  fold trained in Hb.
  rewrite (Hb "model").
  change (bound (armed config_of st) "model") with (bound st "model").
  rewrite Hm.
  change (bound (write_use_cache (config_of model) true trained) "model_for_training")
    with (bound trained "model_for_training").
  rewrite (Hb "model_for_training").
  change (bound (armed config_of st) "model_for_training")
    with (bound st "model_for_training").
  rewrite Hw. reflexivity.
Qed.

Lemma armed_flags (st : state) :
  use_cache (armed config_of st) (config_of model) = false /\
  use_cache (armed config_of st) (config_of model_for_training) = false.
Proof.
  unfold armed, write_use_cache. cbn. rewrite !Nat.eqb_refl.
  split; [now destruct (Nat.eqb _ _) | reflexivity].
Qed.

Lemma restored_flags (st : state) :
  use_cache (restored config_of st) (config_of model) = true /\
  use_cache (restored config_of st) (config_of model_for_training) = true.
Proof.
  unfold restored, write_use_cache. cbn. rewrite !Nat.eqb_refl.
  split; [now destruct (Nat.eqb _ _) | reflexivity].
Qed.

(** X9.  When "Train the Model" completes, both [use_cache] flags are on,
    whatever they were before the cell: the cell does not put the earlier
    values back. *)
Theorem train_cell_leaves_cache_on (st st' : state) :
  run train_cell st = (st', None) ->
  use_cache st' (config_of model) = true /\
  use_cache st' (config_of model_for_training) = true.
Proof.
  rewrite train_cell_run. intros H.
  destruct (bound st "model"); [|discriminate H].
  destruct (bound st "model_for_training"); [|discriminate H].
  destruct (trainer st) as [a|]; [|discriminate H]. cbn zeta in H.
  destruct (library_fails "trainer.train"); [discriminate H|].
  destruct (library_fails "torch.cuda.empty_cache"); [discriminate H|].
  injection H as <-. apply restored_flags.
Qed.

(** X10.  When the trainer, or the emptying of the accelerator cache after
    it, raises, the cell ends there: both flags stay off, since nothing
    puts them back on the way out. *)
Theorem library_failure_leaves_cache_off (st st' : state) (call : string) :
  run train_cell st = (st', Some (LibraryError call)) ->
  (call = "trainer.train" \/ call = "torch.cuda.empty_cache") /\
  use_cache st' (config_of model) = false /\
  use_cache st' (config_of model_for_training) = false.
Proof.
  rewrite train_cell_run. intros H.
  destruct (bound st "model"); [|discriminate H].
  destruct (bound st "model_for_training"); [|discriminate H].
  destruct (trainer st) as [a|]; [|discriminate H]. cbn zeta in H.
  destruct (train_loop_spec config_of train_steps a (armed config_of st))
    as (_ & _ & _ & _ & Hu & _).
  destruct (library_fails "trainer.train").
  - injection H as <- <-. split; [now left|]. rewrite Hu. apply armed_flags.
  - destruct (library_fails "torch.cuda.empty_cache"); [|discriminate H].
    injection H as <- <-. split; [now right|]. rewrite Hu. apply armed_flags.
Qed.

(** X11.  Run before the wrapped model exists, "Train the Model" stops with
    a [NameError] before the trainer is called: no batch runs, and when
    [model] is bound its flag has already been written off and stays off. *)
Theorem train_cell_before_wrapping (st : state) :
  bound st "model_for_training" = false ->
  run train_cell st =
  if bound st "model"
  then (write_use_cache (config_of model) false st,
        Some (NameError "model_for_training"))
  else (st, Some (NameError "model")).
Proof.
  intros H. rewrite train_cell_run, H. reflexivity.
Qed.

(** *** What no statement does *)

Lemma exec_use_cache_frame (s : stmt) (st : state) (a : nat) :
  (forall h, a <> config_of h) ->
  use_cache (fst (exec s st)) a = use_cache st a.
Proof.
  intros Ha. destruct s; cbn [Notebook.exec].
  - destruct hub_tokenizer; reflexivity.
  - destruct (tokenizer st); reflexivity.
  - destruct (build_dataset edited_df); reflexivity.
  - unfold Notebook.make_trainer.
    destruct (first_unbound st _); [reflexivity|].
    destruct (tokenizer st); [|reflexivity].
    destruct (first_unbound st _); [reflexivity|].
    destruct (first_unbound _ _); [reflexivity|].
    destruct (library_fails "SFTTrainer"); reflexivity.
  - destruct (bound st (handle_name h)); [|reflexivity].
    cbn. specialize (Ha h). apply Nat.eqb_neq in Ha. now rewrite Ha.
  - destruct (trainer st) as [a0|]; [|reflexivity].
    destruct (train_loop_spec config_of train_steps a0 st) as (_ & _ & _ & _ & Hu & _).
    destruct (library_fails "trainer.train"); cbn; now rewrite Hu.
  - destruct (first_unbound st reads); [reflexivity|].
    destruct (library_fails call); [reflexivity|].
    destruct binds; reflexivity.
Qed.

Lemma keeps_tokenizers_refl (st : state) : keeps_tokenizers st st.
Proof. split; [apply Nat.le_refl | auto]. Qed.

Lemma keeps_tokenizers_trans (st1 st2 st3 : state) :
  keeps_tokenizers st1 st2 -> keeps_tokenizers st2 st3 -> keeps_tokenizers st1 st3.
Proof.
  intros [Hn1 H1] [Hn2 H2]. split; [now apply Nat.le_trans with (next st2)|].
  intros a Ha. destruct (H1 a Ha) as [He1 Hp1].
  destruct (H2 a (Nat.lt_le_trans _ _ _ Ha Hn1)) as [He2 Hp2].
  split; [now rewrite He2 | auto].
Qed.

Lemma keeps_tokenizers_same (st st' : state) :
  next st' = next st -> objects st' = objects st -> keeps_tokenizers st st'.
Proof.
  intros Hn Ho. split; [rewrite Hn; apply Nat.le_refl|].
  intros a _. rewrite Ho. auto.
Qed.

Lemma exec_keeps_tokenizers (s : stmt) (st : state) :
  keeps_tokenizers st (fst (exec s st)).
Proof.
  destruct s; cbn [Notebook.exec].
  - (* a new object at the first unused address *)
    destruct hub_tokenizer as [t|e]; [|apply keeps_tokenizers_refl].
    split; [cbn; apply Nat.le_succ_diag_r|].
    intros a Ha. cbn.
    assert (Nat.eqb a (next st) = false) as ->; [|auto].
    apply Nat.eqb_neq. intros ->. exact (Nat.lt_irrefl _ Ha).
  - (* the one write to a tokenizer *)
    destruct (tokenizer st) as [a0|]; [|apply keeps_tokenizers_refl].
    split; [apply Nat.le_refl|].
    intros a _. cbn. destruct (Nat.eqb a a0) eqn:E; [|auto].
    apply Nat.eqb_eq in E. subst a0. cbn. auto.
  - destruct (build_dataset edited_df); apply keeps_tokenizers_same; reflexivity.
  - unfold Notebook.make_trainer.
    destruct (first_unbound st _); [apply keeps_tokenizers_refl|].
    destruct (tokenizer st); [|apply keeps_tokenizers_refl].
    destruct (first_unbound st _); [apply keeps_tokenizers_refl|].
    destruct (first_unbound _ _); [apply keeps_tokenizers_same; reflexivity|].
    destruct (library_fails "SFTTrainer"); apply keeps_tokenizers_same; reflexivity.
  - destruct (bound st (handle_name h)); apply keeps_tokenizers_same; reflexivity.
  - destruct (trainer st) as [a0|]; [|apply keeps_tokenizers_refl].
    destruct (train_loop_spec config_of train_steps a0 st) as (Ho & _).
    destruct (train_loop_keeps train_steps a0 st) as (Hn & _).
    destruct (library_fails "trainer.train"); now apply keeps_tokenizers_same.
  - destruct (first_unbound st reads); [apply keeps_tokenizers_refl|].
    destruct (library_fails call); [apply keeps_tokenizers_refl|].
    destruct binds; apply keeps_tokenizers_same; reflexivity.
Qed.

Lemma run_keeps_tokenizers (p : list stmt) (st : state) :
  keeps_tokenizers st (fst (run p st)).
Proof.
  revert st; induction p as [|s p IH]; intros st; [apply keeps_tokenizers_refl|].
  pose proof (exec_keeps_tokenizers s st) as H1.
  cbn [Notebook.run]. destruct (exec s st) as [st' [e|]]; [exact H1|].
  cbn [fst] in H1. now apply keeps_tokenizers_trans with st'.
Qed.

(** X12.  Whatever statements run, in whatever order, and however they end,
    the [use_cache] flag of a configuration object other than those of the
    two handles is never written. *)
Theorem other_configs_untouched (p : list stmt) (st : state) (a : nat) :
  (forall h, a <> config_of h) ->
  use_cache (fst (run p st)) a = use_cache st a.
Proof.
  intros Ha. revert st; induction p as [|s p IH]; intros st; [reflexivity|].
  pose proof (exec_use_cache_frame s st a Ha) as H1.
  cbn [Notebook.run]. destruct (exec s st) as [st' [e|]]; [exact H1|].
  cbn [fst] in H1. now rewrite IH.
Qed.

(** X13.  Whatever statements run, in whatever order, no tokenizer that
    exists has its end-of-sequence token changed: the only attribute the
    notebook writes is the padding token. *)
Theorem eos_token_never_written (p : list stmt) (st : state) (a : nat) :
  a < next st ->
  eos_token (objects (fst (run p st)) a) = eos_token (objects st a).
Proof.
  intros Ha. destruct (run_keeps_tokenizers p st) as [_ H]. now apply H.
Qed.

(** X14.  A tokenizer that pads with its end-of-sequence token keeps doing
    so under any statements in any order, cells run again or a new
    tokenizer loaded included: the trainer's tokenizer cannot lose its
    padding. *)
Theorem padding_stays (p : list stmt) (st : state) (a : nat) :
  a < next st ->
  pad_token (objects st a) = eos_token (objects st a) ->
  pad_token (objects (fst (run p st)) a) = eos_token (objects (fst (run p st)) a).
Proof.
  intros Ha Hp. destruct (run_keeps_tokenizers p st) as [_ H]. now apply H.
Qed.

(** *** Whole runs *)

Ltac unfold_run H :=
  cbv -[build_dataset] in H;
  repeat
    (match type of H with
     | context [match hub_tokenizer with _ => _ end] =>
         destruct hub_tokenizer eqn:?
     | context [if library_fails ?x then _ else _] =>
         destruct (library_fails x) eqn:?
     | context [match build_dataset ?d with _ => _ end] =>
         destruct (build_dataset d) eqn:?
     end; try discriminate H).

(** X15.  A notebook run that completes has done exactly this: the hub
    served a tokenizer, the builder's dataset is bound to [dataset], the
    collator and the trainer received the tokenizer padded with its
    end-of-sequence token, then the trainer's batches ran, each with that
    tokenizer and both flags off, and at the end both flags are on. *)
Theorem completed_run (initial_use_cache : nat -> bool) (final : state) :
  run notebook (fresh initial_use_cache) = (final, None) ->
  exists served ds,
    hub_tokenizer = Ok served /\
    build_dataset edited_df = Ok ds /\
    dataset final = Some ds /\
    trace final
    = UsesTokenizer (set_pad_token served (eos_token served))
      :: UsesTokenizer (set_pad_token served (eos_token served))
      :: concat (repeat (batch (set_pad_token served (eos_token served)) false false)
                        train_steps) /\
    use_cache final (config_of model) = true /\
    use_cache final (config_of model_for_training) = true.
Proof.
  intros H. change notebook with (before_training ++ train_cell ++ save_cell) in H.
  rewrite run_app in H.
  destruct (run before_training (fresh initial_use_cache)) as [ready [e|]] eqn:Hpre;
    [discriminate H|].
  assert (Hready : exists served ds,
    hub_tokenizer = Ok served /\ build_dataset edited_df = Ok ds /\
    bound ready "model" = true /\ bound ready "model_for_training" = true /\
    trainer ready = Some 0 /\
    objects ready 0 = set_pad_token served (eos_token served) /\
    dataset ready = Some ds /\
    trace ready = [UsesTokenizer (set_pad_token served (eos_token served));
                   UsesTokenizer (set_pad_token served (eos_token served))]).
  { unfold_run Hpre. injection Hpre as <-. eexists _, _. repeat split. }
  destruct Hready as (served & ds & Hhub & Hds & Hm & Hw & Ht & Ho & Hd & Htr).
  exists served, ds. split; [exact Hhub|]. split; [exact Hds|].
  rewrite run_app, train_cell_run, Hm, Hw, Ht in H. cbn zeta in H.
  destruct (library_fails "trainer.train"); [discriminate H|].
  destruct (library_fails "torch.cuda.empty_cache"); [discriminate H|].
  unfold save_cell in H. cbn [Notebook.run Notebook.exec] in H.
  destruct (first_unbound _ _); [discriminate H|].
  destruct (library_fails "save_pretrained"); [discriminate H|].
  injection H as <-.
  destruct (train_loop_spec config_of train_steps 0 (armed config_of ready))
    as (_ & _ & _ & _ & _ & Hl).
  destruct (train_loop_keeps train_steps 0 (armed config_of ready)) as (_ & Hdk & _).
  destruct (armed_flags ready) as [Hfm Hfw].
  rewrite Hfm, Hfw in Hl.
  change (objects (armed config_of ready) 0) with (objects ready 0) in Hl.
  change (trace (armed config_of ready)) with (trace ready) in Hl.
  rewrite Ho, Htr in Hl.
  split; [|split; [|apply restored_flags]].
  - change (dataset (restored config_of
                       (train_loop train_steps 0 (armed config_of ready))))
      with (dataset (train_loop train_steps 0 (armed config_of ready))).
    rewrite Hdk. exact Hd.
  - change (trace (restored config_of
                     (train_loop train_steps 0 (armed config_of ready))))
      with (trace (train_loop train_steps 0 (armed config_of ready))).
    exact Hl.
Qed.

(** X16.  When the builder raises, the notebook stops in "Dataset Setup"
    with the builder's exception and in the state the cells before it
    left: no dataset is bound, no trainer is built, nothing has received the
    tokenizer and no batch has run. *)
Theorem builder_failure_stops_notebook (initial_use_cache : nat -> bool)
        (st : state) (e : exn) :
  run (load_model_cell ++ lora_cells) (fresh initial_use_cache) = (st, None) ->
  build_dataset edited_df = Raise e ->
  run notebook (fresh initial_use_cache) = (st, Some e) /\
  dataset st = None /\ trainer st = None /\ trace st = [].
Proof.
  intros Hpre Hb. split.
  - change notebook
      with ((load_model_cell ++ lora_cells)
            ++ dataset_cell ++ trainer_cell ++ train_cell ++ save_cell).
    rewrite run_app, Hpre. unfold dataset_cell.
    cbn [app Notebook.run Notebook.exec]. now rewrite Hb.
  - clear Hb. unfold_run Hpre. injection Hpre as <-. repeat split.
Qed.

End Surroundings.

Lemma train_cell_leaves_cache_on_witness :
  use_cache (fst (example_run train_cell ready_cache_off)) (shared_config model) = true /\
  use_cache (fst (example_run train_cell ready_cache_off))
            (shared_config model_for_training) = true.
Proof.
  apply (train_cell_leaves_cache_on (Ok llama_tokenizer) reddit_example
           (fun _ => false) shared_config 2 ready_cache_off).
  vm_compute. reflexivity.
Defined.

Lemma library_failure_leaves_cache_off_witness :
  ("trainer.train" = "trainer.train" \/ "trainer.train" = "torch.cuda.empty_cache") /\
  use_cache (fst (failing_run train_cell failing_ready)) (separate_configs model) = false /\
  use_cache (fst (failing_run train_cell failing_ready))
            (separate_configs model_for_training) = false.
Proof.
  apply (library_failure_leaves_cache_off (Ok llama_tokenizer) reddit_example
           (String.eqb "trainer.train") separate_configs 2 failing_ready).
  vm_compute. reflexivity.
Defined.

Lemma train_cell_before_wrapping_witness :
  example_run train_cell loaded_example =
  if bound loaded_example "model"
  then (write_use_cache (shared_config model) false loaded_example,
        Some (NameError "model_for_training"))
  else (loaded_example, Some (NameError "model")).
Proof.
  apply (train_cell_before_wrapping (Ok llama_tokenizer) reddit_example
           (fun _ => false) shared_config 2 loaded_example).
  vm_compute. reflexivity.
Defined.

Lemma other_configs_untouched_witness :
  use_cache (fst (run (Ok llama_tokenizer) reddit_example (fun _ => false)
                      separate_configs 2 notebook (fresh (fun _ => false)))) 7
  = use_cache (fresh (fun _ => false)) 7.
Proof.
  apply (other_configs_untouched (Ok llama_tokenizer) reddit_example
           (fun _ => false) separate_configs 2 notebook (fresh (fun _ => false)) 7).
  intros [] H; discriminate H.
Defined.

Lemma eos_token_never_written_witness :
  eos_token (objects (fst (example_run after_loader loaded_example)) 0)
  = eos_token (objects loaded_example 0).
Proof.
  apply (eos_token_never_written (Ok llama_tokenizer) reddit_example
           (fun _ => false) shared_config 2 after_loader loaded_example 0).
  vm_compute. constructor.
Defined.

Lemma padding_stays_witness :
  pad_token (objects (fst (example_run after_loader loaded_example)) 0)
  = eos_token (objects (fst (example_run after_loader loaded_example)) 0).
Proof.
  apply (padding_stays (Ok llama_tokenizer) reddit_example
           (fun _ => false) shared_config 2 after_loader loaded_example 0).
  - vm_compute. constructor.
  - vm_compute. reflexivity.
Defined.

Lemma completed_run_witness :
  exists served ds,
    Ok llama_tokenizer = Ok served /\
    build_dataset reddit_example = Ok ds /\
    dataset final_example = Some ds /\
    trace final_example
    = UsesTokenizer (set_pad_token served (eos_token served))
      :: UsesTokenizer (set_pad_token served (eos_token served))
      :: concat (repeat (batch (set_pad_token served (eos_token served)) false false) 2) /\
    use_cache final_example (shared_config model) = true /\
    use_cache final_example (shared_config model_for_training) = true.
Proof.
  apply (completed_run (Ok llama_tokenizer) reddit_example
           (fun _ => false) shared_config 2 (fun _ => true) final_example).
  vm_compute. reflexivity.
Defined.

Lemma builder_failure_stops_notebook_witness :
  missing_prompt_run notebook (fresh (fun _ => true))
  = (wrapped_missing, Some (KeyError "full_prompt dogs")) /\
  dataset wrapped_missing = None /\ trainer wrapped_missing = None /\
  trace wrapped_missing = [].
Proof.
  apply (builder_failure_stops_notebook (Ok llama_tokenizer) missing_prompt_example
           (fun _ => false) separate_configs 2 (fun _ => true) wrapped_missing).
  - vm_compute. reflexivity.
  - vm_compute. reflexivity.
Defined.

End NotebookMore.
